(** * Tasks Manager: the client (api.js, App.js) and the task/comment store

    The React client of the Tasks Manager is embedded here function by
    function:
    - [Js]      the JavaScript values the client handles (decoded JSON),
                with truthiness, [||], [===], string conversion and
                property access;
    - [Json]    [JSON.stringify] on those values and a reference
                [JSON.parse] for the documents of this API;
    - [Net]     programs that call [fetch], and their runs against a network;
    - [Api]     src/frontend/src/api.js: [http] and the eight API functions;
    - [Ui]      App.js: [TaskDetail], [CommentList], [EditableComment], [App];
    - [Server]  the task/comment store behind the REST API, modelled from
                the specification (the backend is not among the sources).

    Conventions.  A JavaScript number is modelled by an integer (ids, lengths
    and status codes are all this client computes with).  A string is a
    [string] of the Standard Library; the client only inspects ASCII
    positions.  An event handler runs to completion on the state of the
    render that created it: no other event is interleaved with it. *)

From Stdlib Require Import ZArith List String Ascii Bool Lia DecimalString.
Import ListNotations.

Set Implicit Arguments.
Set Warnings "-register-all".
Local Open Scope string_scope.
Local Open Scope list_scope.

(** ** JavaScript values *)

Module Js.

Inductive JsValue : Type :=
| JUndefined
| JNull
| JBool (b : bool)
| JNum (n : Z)
| JStr (s : string)
| JArr (items : list JsValue)
| JObj (fields : list (string * JsValue)).

(** A thrown value: an [Error] object.  [err_status] and [err_payload] are
    the two properties [http] adds; they are [None] on any other error. *)
Record JsError : Type := mkError {
  err_message : string;
  err_status : option Z;
  err_payload : option JsValue
}.

(** The outcome of an expression or of an awaited promise. *)
Inductive Result (A : Type) : Type :=
| Ok (a : A)
| Throw (e : JsError).
Arguments Ok {A} a.
Arguments Throw {A} e.

Definition rbind {A B} (r : Result A) (f : A -> Result B) : Result B :=
  match r with
  | Ok a => f a
  | Throw e => Throw e
  end.

(** [new TypeError(...)], raised by the runtime; the text is the engine's. *)
Definition type_error (what : string) : JsError :=
  mkError (String.append "TypeError: " what) None None.

(** ToBoolean. *)
Definition truthy (v : JsValue) : bool :=
  match v with
  | JUndefined | JNull => false
  | JBool b => b
  | JNum n => negb (n =? 0)%Z
  | JStr s => negb (s =? "")%string
  | JArr _ | JObj _ => true
  end.

(** [a || b] and [a && b] on already evaluated operands. *)
Definition js_or (a b : JsValue) : JsValue := if truthy a then a else b.
Definition js_and (a b : JsValue) : JsValue := if truthy a then b else a.

Definition is_nullish (v : JsValue) : bool :=
  match v with
  | JUndefined | JNull => true
  | _ => false
  end.

(** A primitive value: compared by [===] on its contents. *)
Definition is_primitive (v : JsValue) : bool :=
  match v with
  | JArr _ | JObj _ => false
  | _ => true
  end.

(** [a === b].  Arrays and objects compare by reference, which two decoded
    values never share: they are unequal here. *)
Definition strict_eq (a b : JsValue) : bool :=
  match a, b with
  | JUndefined, JUndefined => true
  | JNull, JNull => true
  | JBool x, JBool y => Bool.eqb x y
  | JNum x, JNum y => (x =? y)%Z
  | JStr x, JStr y => (x =? y)%string
  | _, _ => false
  end.

Definition string_of_Z (n : Z) : string :=
  NilZero.string_of_int (Z.to_int n).

(** ToString, as used by template literals and by [new Error(message)],
    on decoded values (an object has no [toString] of its own). *)
Fixpoint toString (v : JsValue) : string :=
  match v with
  | JUndefined => "undefined"
  | JNull => "null"
  | JBool true => "true"
  | JBool false => "false"
  | JNum n => string_of_Z n
  | JStr s => s
  | JArr items =>
      String.concat ","
        (map (fun x => if is_nullish x then "" else toString x) items)
  | JObj _ => "[object Object]"
  end.

Fixpoint lookup (k : string) (fields : list (string * JsValue)) : JsValue :=
  match fields with
  | [] => JUndefined
  | (k', v) :: rest => if (k' =? k)%string then v else lookup k rest
  end.

(** [v.k] for the property names this client reads (own properties of a
    decoded object, [length] of an array or string). *)
Definition getProp (v : JsValue) (k : string) : Result JsValue :=
  match v with
  | JUndefined | JNull =>
      Throw (type_error (String.append "Cannot read properties of "
                           (String.append (toString v)
                              (String.append " (reading '"
                                 (String.append k "')")))))
  | JObj fields => Ok (lookup k fields)
  | JArr items =>
      if (k =? "length")%string then Ok (JNum (Z.of_nat (List.length items)))
      else Ok JUndefined
  | JStr s =>
      if (k =? "length")%string then Ok (JNum (Z.of_nat (String.length s)))
      else Ok JUndefined
  | JBool _ | JNum _ => Ok JUndefined
  end.

(** [v[0]]. *)
Definition getFirst (v : JsValue) : Result JsValue :=
  match v with
  | JUndefined | JNull =>
      Throw (type_error (String.append "Cannot read properties of "
                           (String.append (toString v) " (reading '0')")))
  | JArr items => Ok (hd JUndefined items)
  | JStr s => Ok (match s with
                  | EmptyString => JUndefined
                  | String c _ => JStr (String c EmptyString)
                  end)
  | JObj fields => Ok (lookup "0" fields)
  | JBool _ | JNum _ => Ok JUndefined
  end.

End Js.
Import Js.

Notation "x <- r ;; k" := (rbind r (fun x => k))
  (at level 61, r at next level, right associativity).

(** ** JSON *)

Module Json.

Definition dquote : ascii := "034"%char.
Definition backslash : ascii := "092"%char.

Definition hex_digit (n : nat) : ascii :=
  match n with
  | 0 => "0" | 1 => "1" | 2 => "2" | 3 => "3" | 4 => "4" | 5 => "5"
  | 6 => "6" | 7 => "7" | 8 => "8" | 9 => "9" | 10 => "a" | 11 => "b"
  | 12 => "c" | 13 => "d" | 14 => "e" | _ => "f"
  end%char.

(** The escape of one character inside a JSON string literal. *)
Definition escape_char (c : ascii) : string :=
  let n := nat_of_ascii c in
  if (n =? 34)%nat then String backslash (String dquote "")
  else if (n =? 92)%nat then String backslash (String backslash "")
  else if (n =? 8)%nat then String backslash "b"
  else if (n =? 12)%nat then String backslash "f"
  else if (n =? 10)%nat then String backslash "n"
  else if (n =? 13)%nat then String backslash "r"
  else if (n =? 9)%nat then String backslash "t"
  else if (n <? 32)%nat then
    String backslash
      (String "u" (String "0" (String "0"
         (String (hex_digit (n / 16)) (String (hex_digit (n mod 16)) "")))))
  else String c "".

Fixpoint escape (s : string) : string :=
  match s with
  | EmptyString => EmptyString
  | String c rest => String.append (escape_char c) (escape rest)
  end.

Definition quote (s : string) : string :=
  String dquote (String.append (escape s) (String dquote "")).

(** [JSON.stringify(v)]; [None] is the result [undefined].  A key whose
    value is [undefined] is left out of an object; an [undefined] element of
    an array is written [null]. *)
Fixpoint JSON_stringify (v : JsValue) : option string :=
  match v with
  | JUndefined => None
  | JNull => Some "null"
  | JBool true => Some "true"
  | JBool false => Some "false"
  | JNum n => Some (string_of_Z n)
  | JStr s => Some (quote s)
  | JArr items =>
      Some (String.append "["
              (String.append
                 (String.concat ","
                    (map (fun x => match JSON_stringify x with
                                   | Some t => t
                                   | None => "null"
                                   end) items))
                 "]"))
  | JObj fields =>
      Some (String.append "{"
              (String.append
                 (String.concat ","
                    (flat_map (fun kv => match JSON_stringify (snd kv) with
                                         | Some t =>
                                             [String.append (quote (fst kv))
                                                (String.append ":" t)]
                                         | None => []
                                         end) fields))
                 "}"))
  end.

(** *** A reference [JSON.parse]

    Enough of RFC 8259 for the envelopes of this API: white space, [null],
    [true], [false], integers, strings with the two-character escapes,
    arrays and objects.  [None] is the [SyntaxError]. *)

Definition is_ws (c : ascii) : bool :=
  let n := nat_of_ascii c in
  ((n =? 32) || (n =? 9) || (n =? 10) || (n =? 13))%nat.

Fixpoint skip_ws (cs : list ascii) : list ascii :=
  match cs with
  | c :: rest => if is_ws c then skip_ws rest else cs
  | [] => []
  end.

Definition digit_value (c : ascii) : option Z :=
  let n := nat_of_ascii c in
  if ((48 <=? n) && (n <=? 57))%nat then Some (Z.of_nat (n - 48)) else None.

Fixpoint parse_digits (acc : Z) (cs : list ascii) : Z * list ascii :=
  match cs with
  | c :: rest =>
      match digit_value c with
      | Some d => parse_digits (acc * 10 + d) rest
      | None => (acc, cs)
      end
  | [] => (acc, [])
  end.

(** A number without fraction or exponent, and without a leading zero. *)
Definition parse_int (cs : list ascii) : option (Z * list ascii) :=
  let '(neg, ds) := match cs with
                    | "-"%char :: rest => (true, rest)
                    | _ => (false, cs)
                    end in
  match ds with
  | c :: rest =>
      match digit_value c with
      | Some d =>
          let '(n, rest') := if (d =? 0)%Z then (0%Z, rest)
                             else parse_digits d rest in
          match rest' with
          | c' :: _ =>
              if match digit_value c' with Some _ => true | None => false end
                 || Ascii.eqb c' "." || Ascii.eqb c' "e" || Ascii.eqb c' "E"
              then None
              else Some (if neg then (- n)%Z else n, rest')
          | [] => Some (if neg then (- n)%Z else n, rest')
          end
      | None => None
      end
  | [] => None
  end.

Definition unescape (c : ascii) : option ascii :=
  let n := nat_of_ascii c in
  if (n =? 34)%nat then Some dquote
  else if (n =? 92)%nat then Some backslash
  else if (n =? 47)%nat then Some "/"%char
  else if (n =? 98)%nat then Some "008"%char
  else if (n =? 102)%nat then Some "012"%char
  else if (n =? 110)%nat then Some "010"%char
  else if (n =? 114)%nat then Some "013"%char
  else if (n =? 116)%nat then Some "009"%char
  else None.

(** The characters of a string literal after its opening quote. *)
Fixpoint parse_chars (cs : list ascii) : option (string * list ascii) :=
  match cs with
  | [] => None
  | c :: rest =>
      let n := nat_of_ascii c in
      if (n =? 34)%nat then Some (EmptyString, rest)
      else if (n =? 92)%nat then
        match rest with
        | e :: rest' =>
            match unescape e, parse_chars rest' with
            | Some c', Some (s, r) => Some (String c' s, r)
            | _, _ => None
            end
        | [] => None
        end
      else if (n <? 32)%nat then None
      else match parse_chars rest with
           | Some (s, r) => Some (String c s, r)
           | None => None
           end
  end.

(** A later duplicate of a key overrides the earlier value in place. *)
Fixpoint set_field (k : string) (v : JsValue)
    (fields : list (string * JsValue)) : list (string * JsValue) :=
  match fields with
  | [] => [(k, v)]
  | (k', v') :: rest =>
      if (k' =? k)%string then (k, v) :: rest
      else (k', v') :: set_field k v rest
  end.

Fixpoint parse_value (fuel : nat) (cs : list ascii)
    : option (JsValue * list ascii) :=
  match fuel with
  | O => None
  | S fuel' =>
      match skip_ws cs with
      | "n" :: "u" :: "l" :: "l" :: rest => Some (JNull, rest)
      | "t" :: "r" :: "u" :: "e" :: rest => Some (JBool true, rest)
      | "f" :: "a" :: "l" :: "s" :: "e" :: rest => Some (JBool false, rest)
      | "[" :: rest =>
          match skip_ws rest with
          | "]" :: rest' => Some (JArr [], rest')
          | _ => parse_items fuel' rest []
          end
      | "{" :: rest =>
          match skip_ws rest with
          | "}" :: rest' => Some (JObj [], rest')
          | _ => parse_members fuel' rest []
          end
      | c :: rest =>
          if Ascii.eqb c dquote then
            match parse_chars rest with
            | Some (s, rest') => Some (JStr s, rest')
            | None => None
            end
          else
            match parse_int (c :: rest) with
            | Some (n, rest') => Some (JNum n, rest')
            | None => None
            end
      | [] => None
      end%char
  end
with parse_items (fuel : nat) (cs : list ascii) (acc : list JsValue)
    : option (JsValue * list ascii) :=
  match fuel with
  | O => None
  | S fuel' =>
      match parse_value fuel' cs with
      | Some (v, rest) =>
          match skip_ws rest with
          | "," :: rest' => parse_items fuel' rest' (acc ++ [v])
          | "]" :: rest' => Some (JArr (acc ++ [v]), rest')
          | _ => None
          end%char
      | None => None
      end
  end
with parse_members (fuel : nat) (cs : list ascii)
    (acc : list (string * JsValue)) : option (JsValue * list ascii) :=
  match fuel with
  | O => None
  | S fuel' =>
      match skip_ws cs with
      | c :: rest =>
          if Ascii.eqb c dquote then
            match parse_chars rest with
            | Some (k, rest1) =>
                match skip_ws rest1 with
                | ":" :: rest2 =>
                    match parse_value fuel' rest2 with
                    | Some (v, rest3) =>
                        match skip_ws rest3 with
                        | "," :: rest4 =>
                            parse_members fuel' rest4 (set_field k v acc)
                        | "}" :: rest4 =>
                            Some (JObj (set_field k v acc), rest4)
                        | _ => None
                        end
                    | None => None
                    end
                | _ => None
                end%char
            | None => None
            end
          else None
      | [] => None
      end
  end.

Definition json_parse (text : string) : option JsValue :=
  let cs := list_ascii_of_string text in
  match parse_value (2 * List.length cs + 2) cs with
  | Some (v, rest) =>
      match skip_ws rest with
      | [] => Some v
      | _ :: _ => None
      end
  | None => None
  end.

(** Writes a JSON text with ['] where the document has its double quote. *)
Fixpoint dq (s : string) : string :=
  match s with
  | EmptyString => EmptyString
  | String c rest => String (if Ascii.eqb c "'" then dquote else c) (dq rest)
  end.

End Json.
Import Json.

(** ** Programs over [fetch] *)

Module Net.

(** What [http] reads of a [Response]: [res.ok], [res.status],
    [res.statusText] and the text [await res.text()] resolves to. *)
Record Response : Type := mkResponse {
  res_ok : bool;
  res_status : Z;
  res_statusText : string;
  res_text : string
}.

(** The second argument of [fetch]; [None] is an absent key. *)
Record RequestInit : Type := mkInit {
  init_headers : option (list (string * string));
  init_method : option string;
  init_body : option string
}.

(** The options object of a call [http(path)]: the default [{}]. *)
Definition no_options : RequestInit := mkInit None None None.

Record Request : Type := mkRequest {
  req_url : string;
  req_init : RequestInit
}.

(** The method [fetch] uses: [GET] unless the init names one. *)
Definition req_method (r : Request) : string :=
  match init_method (req_init r) with
  | Some m => m
  | None => "GET"
  end.

(** [await fetch(...)]: a response, or the rejection of a request that got
    none (the network failed). *)
Inductive FetchOutcome : Type :=
| Responded (res : Response)
| Rejected (e : JsError).

(** An asynchronous computation: it returns, or calls [fetch] and goes on
    with the outcome. *)
Inductive Prog (A : Type) : Type :=
| Ret (a : A)
| Fetch (rq : Request) (k : FetchOutcome -> Prog A).
Arguments Ret {A} a.
Arguments Fetch {A} rq k.

Fixpoint pbind {A B} (p : Prog A) (f : A -> Prog B) : Prog B :=
  match p with
  | Ret a => f a
  | Fetch rq k => Fetch rq (fun o => pbind (k o) f)
  end.

(** A promise: an asynchronous computation that resolves or rejects. *)
Definition Promise (A : Type) : Type := Prog (Result A).

Definition resolve {A} (a : A) : Promise A := Ret (Ok a).
Definition reject {A} (e : JsError) : Promise A := Ret (Throw e).

(** [const x = await p; k x], a rejection of [p] being rethrown. *)
Definition await {A B} (p : Promise A) (k : A -> Promise B) : Promise B :=
  pbind p (fun r => match r with
                    | Ok a => k a
                    | Throw e => reject e
                    end).

(** A synchronous expression inside an async function. *)
Definition eval {A} (r : Result A) : Promise A := Ret r.

(** The run of a program against a network: the world answers each request
    and moves on; the requests are recorded in order. *)
Section Run.
Variable World : Type.
Variable network : World -> Request -> FetchOutcome * World.

Fixpoint run {A} (p : Prog A) (w : World) : A * World * list Request :=
  match p with
  | Ret a => (a, w, [])
  | Fetch rq k =>
      let '(o, w1) := network w rq in
      let '(a, w2, log) := run (k o) w1 in
      (a, w2, rq :: log)
  end.
End Run.

(** A scripted network: the outcomes still to be played; once they are
    used up every request is rejected. *)
Definition scripted (w : list FetchOutcome) (_ : Request)
    : FetchOutcome * list FetchOutcome :=
  match w with
  | o :: rest => (o, rest)
  | [] => (Rejected (type_error "Failed to fetch"), [])
  end.

End Net.
Import Net.

Notation "x <~ p ;; k" := (await p (fun x => k))
  (at level 61, p at next level, right associativity).

(** ** src/frontend/src/api.js *)

Module Api.

Section WithRuntime.
(** [process.env.REACT_APP_API_URL], fixed when the bundle is built. *)
Variable REACT_APP_API_URL : option string.
(** The runtime's [JSON.parse]; [None] is a thrown [SyntaxError]. *)
Variable JSON_parse : string -> option JsValue.

(** [process.env.REACT_APP_API_URL || ""]. *)
Definition BASE : string :=
  match REACT_APP_API_URL with
  | Some url => if (url =? "")%string then "" else url
  | None => ""
  end.

(** [{ ...a, ...b }] on headers: a key of [b] overrides the one of [a]. *)
Definition spread_headers (a b : list (string * string))
    : list (string * string) :=
  filter (fun kv => negb (existsb (fun kv' => (fst kv' =? fst kv)%string) b))
    a ++ b.

(** [{ headers: { "Content-Type": ..., ...(options.headers || {}) },
      ...options }]: the spread of [options] comes last, so a [headers]
    key of [options] replaces the merged one. *)
Definition http_init (options : RequestInit) : RequestInit :=
  let merged :=
    spread_headers [("Content-Type", "application/json")]
      (match init_headers options with Some h => h | None => [] end) in
  mkInit (match init_headers options with
          | Some h => Some h
          | None => Some merged
          end)
         (init_method options)
         (init_body options).

(** [text ? JSON.parse(text) : null], the [SyntaxError] caught and
    replaced by the text. *)
Definition parse_body (text : string) : JsValue :=
  if (text =? "")%string then JNull
  else match JSON_parse text with
       | Some v => v
       | None => JStr text
       end.

(** [body && body.error && body.error.message]. *)
Definition error_message_of (body : JsValue) : Result JsValue :=
  if truthy body then
    e <- getProp body "error" ;;
    if truthy e then getProp e "message" else Ok e
  else Ok body.

Definition http (path : string) (options : RequestInit)
    : Promise JsValue :=
  Fetch (mkRequest (String.append BASE path) (http_init options))
    (fun outcome =>
       match outcome with
       | Rejected e => reject e
       | Responded res =>
           let text := res_text res in
           let body := parse_body text in
           if negb (res_ok res) then
             m <~ eval (error_message_of body) ;;
             let message :=
               if truthy m then toString m else res_statusText res in
             reject (mkError message (Some (res_status res)) (Some body))
           else resolve body
       end).

(** Tasks *)
Definition listTasks : Promise JsValue :=
  http "/api/tasks" no_options.

(** [createTask({ title, description })]: the two properties are read off
    the argument. *)
Definition createTask (arg : JsValue) : Promise JsValue :=
  title <~ eval (getProp arg "title") ;;
  description <~ eval (getProp arg "description") ;;
  http "/api/tasks"
    (mkInit None (Some "POST")
       (JSON_stringify
          (JObj [("title", title); ("description", description)]))).

Definition updateTask (id body : JsValue) : Promise JsValue :=
  http (String.append "/api/tasks/" (toString id))
    (mkInit None (Some "PUT") (JSON_stringify body)).

Definition deleteTask (id : JsValue) : Promise JsValue :=
  http (String.append "/api/tasks/" (toString id))
    (mkInit None (Some "DELETE") None).

(** Comments *)
Definition comments_path (taskId : JsValue) : string :=
  String.append "/api/tasks/" (String.append (toString taskId) "/comments").

Definition comment_path (taskId commentId : JsValue) : string :=
  String.append (comments_path taskId)
    (String.append "/" (toString commentId)).

Definition listComments (taskId : JsValue) : Promise JsValue :=
  http (comments_path taskId) no_options.

Definition createComment (taskId arg : JsValue) : Promise JsValue :=
  content <~ eval (getProp arg "content") ;;
  author <~ eval (getProp arg "author") ;;
  http (comments_path taskId)
    (mkInit None (Some "POST")
       (JSON_stringify (JObj [("content", content); ("author", author)]))).

Definition updateComment (taskId commentId body : JsValue)
    : Promise JsValue :=
  http (comment_path taskId commentId)
    (mkInit None (Some "PUT") (JSON_stringify body)).

Definition deleteComment (taskId commentId : JsValue) : Promise JsValue :=
  http (comment_path taskId commentId)
    (mkInit None (Some "DELETE") None).

End WithRuntime.

End Api.

(** ** Components with state *)

Module Component.

(** An async event handler of a component with state [S]: it updates the
    state as it goes, may await promises, and resolves or rejects.  A state
    update made before a throw stays made. *)
Definition Handler (S A : Type) : Type := S -> Prog (Result A * S).

Definition hret {S A} (a : A) : Handler S A := fun s => Ret (Ok a, s).

Definition hbind {S A B} (m : Handler S A) (f : A -> Handler S B)
    : Handler S B :=
  fun s => pbind (m s) (fun rs => match fst rs with
                                  | Ok a => f a (snd rs)
                                  | Throw e => Ret (Throw e, snd rs)
                                  end).

(** A call of a state setter. *)
Definition set {S} (f : S -> S) : Handler S unit :=
  fun s => Ret (Ok tt, f s).

(** A state setter called with an updater, applied at once; an updater
    that throws leaves the state as it was. *)
Definition update {S} (f : S -> Result S) : Handler S unit :=
  fun s => match f s with
           | Ok s' => Ret (Ok tt, s')
           | Throw e => Ret (Throw e, s)
           end.

(** The value of a state variable as the handler's closure holds it. *)
Definition read {S A} (f : S -> A) : Handler S A :=
  fun s => Ret (Ok (f s), s).

(** [await p]. *)
Definition call {S A} (p : Promise A) : Handler S A :=
  fun s => pbind p (fun r => Ret (r, s)).

(** A synchronous expression that may throw. *)
Definition expr {S A} (r : Result A) : Handler S A := fun s => Ret (r, s).

(** [try { m } catch (e) { h e }]. *)
Definition catch {S A} (m : Handler S A) (h : JsError -> Handler S A)
    : Handler S A :=
  fun s => pbind (m s) (fun rs => match fst rs with
                                  | Ok a => Ret (Ok a, snd rs)
                                  | Throw e => h e (snd rs)
                                  end).

(** [try { m } finally { f }], for an [f] that only sets state. *)
Definition finally {S A} (m : Handler S A) (f : S -> S) : Handler S A :=
  fun s => pbind (m s) (fun rs => Ret (fst rs, f (snd rs))).

(** [a || b] on two strings. *)
Definition or_string (a b : string) : string :=
  if (a =? "")%string then b else a.

(** [throw e]. *)
Definition hthrow {S A} (e : JsError) : Handler S A :=
  fun s => Ret (Throw e, s).

(** A handler of one component run from another: a callback prop.  The
    state is the pair of the two components' states; the handler works on
    its own half. *)
Definition on_fst {S T A} (m : Handler S A) : Handler (S * T) A :=
  fun st => pbind (m (fst st)) (fun rs => Ret (fst rs, (snd rs, snd st))).

Definition on_snd {S T A} (m : Handler T A) : Handler (S * T) A :=
  fun st => pbind (m (snd st)) (fun rs => Ret (fst rs, (fst st, snd rs))).

End Component.
Import Component.

Notation "x <<- m ;; k" := (hbind m (fun x => k))
  (at level 61, m at next level, right associativity).
Notation "m >> k" := (hbind m (fun _ => k))
  (at level 61, right associativity).

(** ** App.js *)

Module Ui.

(** [s.replace(pat, rep)] for a string pattern and a replacement without
    [$]: the first occurrence only. *)
Fixpoint replace (pat rep s : string) : string :=
  if String.prefix pat s then
    String.append rep
      (substring (String.length pat) (String.length s - String.length pat) s)
  else match s with
       | EmptyString => EmptyString
       | String c rest => String c (replace pat rep rest)
       end.

(** [s.slice(0, n)]. *)
Definition slice0 (n : nat) (s : string) : string := substring 0 n s.

(** *** TaskDetail *)

(** [stamp?.replace('T', ' ').slice(0, 19) || '-'], the text after
    [Created:] and [Updated:]. *)
Definition display_timestamp (stamp : JsValue) : Result JsValue :=
  match stamp with
  | JUndefined | JNull => Ok (js_or JUndefined (JStr "-"))
  | JStr s => Ok (js_or (JStr (slice0 19 (replace "T" " " s))) (JStr "-"))
  | _ => Throw (type_error "stamp.replace is not a function")
  end.

(** The shape [YYYY-MM-DDTHH:MM:SS] at the head of a string, [sep] being
    the character between date and time. *)
Definition is_digit (c : ascii) : bool :=
  let n := nat_of_ascii c in ((48 <=? n) && (n <=? 57))%nat.

Definition stamp_shape (sep : ascii) (cs : list ascii) : bool :=
  match cs with
  | y1 :: y2 :: y3 :: y4 :: d1 :: m1 :: m2 :: d2 :: a1 :: a2 :: t
      :: h1 :: h2 :: c1 :: n1 :: n2 :: c2 :: s1 :: s2 :: _ =>
      is_digit y1 && is_digit y2 && is_digit y3 && is_digit y4
      && Ascii.eqb d1 "-" && is_digit m1 && is_digit m2
      && Ascii.eqb d2 "-" && is_digit a1 && is_digit a2
      && Ascii.eqb t sep
      && is_digit h1 && is_digit h2 && Ascii.eqb c1 ":"
      && is_digit n1 && is_digit n2 && Ascii.eqb c2 ":"
      && is_digit s1 && is_digit s2
  | _ => false
  end.

(** A string beginning [YYYY-MM-DDTHH:MM:SS]. *)
Definition iso8601 (s : string) : bool :=
  stamp_shape "T" (list_ascii_of_string s).

(** A string that is exactly [YYYY-MM-DD HH:MM:SS]. *)
Definition display_format (s : string) : bool :=
  stamp_shape " " (list_ascii_of_string s) && (String.length s =? 19)%nat.

Section WithRuntime.
Variable REACT_APP_API_URL : option string.
Variable JSON_parse : string -> option JsValue.

Local Abbreviation listTasks := (Api.listTasks REACT_APP_API_URL JSON_parse).
Local Abbreviation createTask := (Api.createTask REACT_APP_API_URL JSON_parse).
Local Abbreviation updateTask := (Api.updateTask REACT_APP_API_URL JSON_parse).
Local Abbreviation deleteTask := (Api.deleteTask REACT_APP_API_URL JSON_parse).
Local Abbreviation listComments :=
  (Api.listComments REACT_APP_API_URL JSON_parse).
Local Abbreviation createComment :=
  (Api.createComment REACT_APP_API_URL JSON_parse).
Local Abbreviation updateComment :=
  (Api.updateComment REACT_APP_API_URL JSON_parse).
Local Abbreviation deleteComment :=
  (Api.deleteComment REACT_APP_API_URL JSON_parse).

(** *** CommentList *)

Record CommentList : Type := mkCommentList {
  comments : JsValue;
  content : string;
  author : string;
  cl_loading : bool;
  cl_err : string
}.

(** [useState([])], [useState('')], [useState('')], [useState(false)],
    [useState('')]. *)
Definition CommentList_init : CommentList :=
  mkCommentList (JArr []) "" "" false "".

Definition setComments (v : JsValue) (st : CommentList) : CommentList :=
  mkCommentList v (content st) (author st) (cl_loading st) (cl_err st).
Definition setContent (v : string) (st : CommentList) : CommentList :=
  mkCommentList (comments st) v (author st) (cl_loading st) (cl_err st).
Definition setAuthor (v : string) (st : CommentList) : CommentList :=
  mkCommentList (comments st) (content st) v (cl_loading st) (cl_err st).
Definition cl_setLoading (v : bool) (st : CommentList) : CommentList :=
  mkCommentList (comments st) (content st) (author st) v (cl_err st).
Definition cl_setErr (v : string) (st : CommentList) : CommentList :=
  mkCommentList (comments st) (content st) (author st) (cl_loading st) v.

Definition fetchComments (taskId : JsValue) : Handler CommentList unit :=
  set (cl_setLoading true) >>
  set (cl_setErr "") >>
  finally
    (catch
       (res <<- call (listComments taskId) ;;
        data <<- expr (getProp res "data") ;;
        set (setComments data))
       (fun e =>
          set (cl_setErr
                 (or_string (err_message e) "Failed to load comments"))))
    (cl_setLoading false).

(** [author || undefined] on the text of the author field. *)
Definition author_or_undefined (a : string) : JsValue :=
  js_or (JStr a) JUndefined.

(** The object [add] hands to [createComment]. *)
Definition new_comment (st : CommentList) : JsValue :=
  JObj [("content", JStr (content st));
        ("author", author_or_undefined (author st))].

Definition add (taskId : JsValue) : Handler CommentList unit :=
  arg <<- read new_comment ;;
  set (cl_setErr "") >>
  catch
    (call (createComment taskId arg) >>
     set (setContent "") >>
     set (setAuthor "") >>
     fetchComments taskId)
    (fun e =>
       set (cl_setErr (or_string (err_message e) "Failed to add comment"))).

Definition save (taskId id body : JsValue) : Handler CommentList unit :=
  set (cl_setErr "") >>
  catch
    (call (updateComment taskId id body) >>
     fetchComments taskId)
    (fun e =>
       set (cl_setErr
              (or_string (err_message e) "Failed to update comment"))).

Definition remove (taskId id : JsValue) : Handler CommentList unit :=
  set (cl_setErr "") >>
  catch
    (call (deleteComment taskId id) >>
     fetchComments taskId)
    (fun e =>
       set (cl_setErr
              (or_string (err_message e) "Failed to delete comment"))).

(** *** EditableComment *)

Record EditableComment : Type := mkEditable {
  isEditing : bool;
  ec_content : JsValue;
  ec_author : JsValue
}.

(** [useState(false)], [useState(c.content)], [useState(c.author || '')]. *)
Definition EditableComment_init (c : JsValue) : Result EditableComment :=
  c_content <- getProp c "content" ;;
  c_author <- getProp c "author" ;;
  Ok (mkEditable false c_content (js_or c_author (JStr ""))).

(** [{ content, author: author || null }]. *)
Definition edited_comment (st : EditableComment) : JsValue :=
  JObj [("content", ec_content st);
        ("author", js_or (ec_author st) JNull)].

(** [setEditing(v)], a state update of an [EditableComment].  It takes
    effect on the instance only while the instance is mounted. *)
Definition setEditing (v : bool) (st : EditableComment) : EditableComment :=
  mkEditable v (ec_content st) (ec_author st).

(** [{loading ? <div>Loading...</div> : <ul>...</ul>}]: the list renders
    its items, and keeps their [EditableComment] instances mounted, only
    while [loading] is false. *)
Definition CommentList_shows_items (st : CommentList) : bool :=
  negb (cl_loading st).

(** [save] of [EditableComment], [onSave] being [save] of the list the
    comment is in: the list's handler runs, then [setEditing(false)] is
    called.  The handler resolves to that update, not to a state of the
    instance: when the list's [save] goes on to fetch the comments, the
    list shows [Loading...] in place of its items, and the instance that
    called [save] is unmounted with the update still to come. *)
Definition EditableComment_save (taskId c : JsValue) (st : EditableComment)
    : Handler CommentList (EditableComment -> EditableComment) :=
  id <<- expr (getProp c "id") ;;
  save taskId id (edited_comment st) >>
  hret (setEditing false).

(** [{c.author || 'Anonymous'}]: the name shown before the comment. *)
Definition displayed_author (c : JsValue) : Result JsValue :=
  a <- getProp c "author" ;;
  Ok (js_or a (JStr "Anonymous")).

(** *** App *)

Record App : Type := mkApp {
  tasks : JsValue;
  selectedId : JsValue;
  loading : bool;
  err : string
}.


Definition setTasks (v : JsValue) (st : App) : App :=
  mkApp v (selectedId st) (loading st) (err st).
Definition setSelectedId (v : JsValue) (st : App) : App :=
  mkApp (tasks st) v (loading st) (err st).
Definition setLoading (v : bool) (st : App) : App :=
  mkApp (tasks st) (selectedId st) v (err st).
Definition setErr (v : string) (st : App) : App :=
  mkApp (tasks st) (selectedId st) (loading st) v.

(** [setTasks((prev) => f prev)]. *)
Definition updateTasks (f : JsValue -> Result JsValue) (st : App)
    : Result App :=
  v <- f (tasks st) ;; Ok (setTasks v st).

(** [[...prev, x]]. *)
Definition spread_append (prev x : JsValue) : Result JsValue :=
  match prev with
  | JArr items => Ok (JArr (items ++ [x]))
  | JStr s =>
      Ok (JArr (map (fun c => JStr (String c EmptyString))
                  (list_ascii_of_string s) ++ [x]))
  | _ => Throw (type_error "prev is not iterable")
  end.

Fixpoint filterM (f : JsValue -> Result bool) (items : list JsValue)
    : Result (list JsValue) :=
  match items with
  | [] => Ok []
  | t :: rest =>
      keep <- f t ;;
      rest' <- filterM f rest ;;
      Ok (if keep then t :: rest' else rest')
  end.

Fixpoint mapM (f : JsValue -> Result JsValue) (items : list JsValue)
    : Result (list JsValue) :=
  match items with
  | [] => Ok []
  | t :: rest =>
      t' <- f t ;;
      rest' <- mapM f rest ;;
      Ok (t' :: rest')
  end.

(** [prev.filter(f)] and [prev.map(f)]: only an array has the method. *)
Definition array_filter (f : JsValue -> Result bool) (prev : JsValue)
    : Result JsValue :=
  match prev with
  | JArr items => items' <- filterM f items ;; Ok (JArr items')
  | _ => Throw (type_error "prev.filter is not a function")
  end.

Definition array_map (f : JsValue -> Result JsValue) (prev : JsValue)
    : Result JsValue :=
  match prev with
  | JArr items => items' <- mapM f items ;; Ok (JArr items')
  | _ => Throw (type_error "prev.map is not a function")
  end.

(** [tasks.find((t) => t.id === selectedId) || null]. *)
Fixpoint findM (f : JsValue -> Result bool) (items : list JsValue)
    : Result JsValue :=
  match items with
  | [] => Ok JUndefined
  | t :: rest =>
      found <- f t ;;
      if found then Ok t else findM f rest
  end.

Definition has_id (id : JsValue) (t : JsValue) : Result bool :=
  t_id <- getProp t "id" ;; Ok (strict_eq t_id id).

Definition selectedTask (st : App) : Result JsValue :=
  match tasks st with
  | JArr items =>
      t <- findM (has_id (selectedId st)) items ;; Ok (js_or t JNull)
  | _ => Throw (type_error "tasks.find is not a function")
  end.

Definition fetchTasks : Handler App unit :=
  selected <<- read selectedId ;;
  set (setLoading true) >>
  set (setErr "") >>
  finally
    (catch
       (res <<- call listTasks ;;
        data <<- expr (getProp res "data") ;;
        set (setTasks data) >>
        len <<- expr (getProp data "length") ;;
        if truthy len && negb (truthy selected) then
          first <<- expr (getFirst data) ;;
          first_id <<- expr (getProp first "id") ;;
          set (setSelectedId first_id)
        else hret tt)
       (fun e =>
          set (setErr (or_string (err_message e) "Failed to load tasks"))))
    (setLoading false).

Definition addTask (body : JsValue) : Handler App unit :=
  res <<- call (createTask body) ;;
  newTask <<- expr (getProp res "data") ;;
  update (updateTasks (fun prev => spread_append prev newTask)) >>
  new_id <<- expr (getProp newTask "id") ;;
  set (setSelectedId new_id).

Definition removeTask (id : JsValue) : Handler App unit :=
  selected <<- read selectedId ;;
  call (deleteTask id) >>
  update (updateTasks
            (array_filter (fun t => t_id <- getProp t "id" ;;
                                    Ok (negb (strict_eq t_id id))))) >>
  if strict_eq selected id then set (setSelectedId JNull) else hret tt.

Definition saveTask (id body : JsValue) : Handler App unit :=
  res <<- call (updateTask id body) ;;
  updated <<- expr (getProp res "data") ;;
  update (updateTasks
            (array_map (fun t => t_id <- getProp t "id" ;;
                                 Ok (if strict_eq t_id id then updated
                                     else t)))).


(** [{selectedId && <CommentList taskId={selectedId} />}]: the task whose
    comment list is mounted, if any. *)
Definition App_comments_taskId (st : App) : option JsValue :=
  if truthy (selectedId st) then Some (selectedId st) else None.

(** The effect of [CommentList] on mount and on a change of [taskId]:
    [if (taskId) fetchComments()]. *)
Definition CommentList_effect (taskId : JsValue) : Handler CommentList unit :=
  if truthy taskId then fetchComments taskId else hret tt.

(** *** TaskList *)

Record TaskList : Type := mkTaskList {
  tl_title : string;
  tl_description : string;
  tl_err : string
}.

(** [useState('')] three times. *)
Definition TaskList_init : TaskList := mkTaskList "" "" "".

Definition tl_setTitle (v : string) (st : TaskList) : TaskList :=
  mkTaskList v (tl_description st) (tl_err st).
Definition tl_setDescription (v : string) (st : TaskList) : TaskList :=
  mkTaskList (tl_title st) v (tl_err st).
Definition tl_setErr (v : string) (st : TaskList) : TaskList :=
  mkTaskList (tl_title st) (tl_description st) v.

(** [{ title, description: description || undefined }]. *)
Definition new_task (st : TaskList) : JsValue :=
  JObj [("title", JStr (tl_title st));
        ("description", js_or (JStr (tl_description st)) JUndefined)].

(** [submit] of [TaskList]; [onCreate] is a prop, a handler of the parent
    (in [App], [addTask]). *)
Definition TaskList_submit {P : Type} (onCreate : JsValue -> Handler P unit)
    : Handler (TaskList * P) unit :=
  arg <<- read (fun st : TaskList * P => new_task (fst st)) ;;
  on_fst (set (tl_setErr "")) >>
  catch
    (on_snd (onCreate arg) >>
     on_fst (set (tl_setTitle "")) >>
     on_fst (set (tl_setDescription "")))
    (fun e =>
       on_fst (set (tl_setErr
                      (or_string (err_message e) "Failed to create task")))).

(** *** TaskDetail: the form *)

(** The one callback handed to [setTimeout]: [() => setMessage('')]. *)
Inductive Timeout : Type := ClearMessage.

(** The state of [TaskDetail], with the timeouts it has scheduled and
    their delays in milliseconds. *)
Record TaskDetail : Type := mkTaskDetail {
  td_title : JsValue;
  td_description : JsValue;
  td_message : string;
  td_err : string;
  td_timeouts : list (Z * Timeout)
}.

(** [v?.k]. *)
Definition optional (v : JsValue) (k : string) : Result JsValue :=
  if is_nullish v then Ok JUndefined else getProp v k.

(** [useState(task?.title || '')], [useState(task?.description || '')],
    [useState('')], [useState('')]. *)
Definition TaskDetail_init (task : JsValue) : Result TaskDetail :=
  t <- optional task "title" ;;
  d <- optional task "description" ;;
  Ok (mkTaskDetail (js_or t (JStr "")) (js_or d (JStr "")) "" "" []).

(** The effect on a change of [task]: the four setters. *)
Definition TaskDetail_effect (task : JsValue) (st : TaskDetail)
    : Result TaskDetail :=
  t <- optional task "title" ;;
  d <- optional task "description" ;;
  Ok (mkTaskDetail (js_or t (JStr "")) (js_or d (JStr "")) "" ""
        (td_timeouts st)).

Definition td_setErr (v : string) (st : TaskDetail) : TaskDetail :=
  mkTaskDetail (td_title st) (td_description st) (td_message st) v
    (td_timeouts st).
Definition td_setMessage (v : string) (st : TaskDetail) : TaskDetail :=
  mkTaskDetail (td_title st) (td_description st) v (td_err st)
    (td_timeouts st).

(** [setTimeout(callback, delay)]. *)
Definition td_setTimeout (callback : Timeout) (delay : Z) (st : TaskDetail)
    : TaskDetail :=
  mkTaskDetail (td_title st) (td_description st) (td_message st) (td_err st)
    (td_timeouts st ++ [(delay, callback)]).

(** A scheduled callback runs. *)
Definition fire (callback : Timeout) (st : TaskDetail) : TaskDetail :=
  match callback with
  | ClearMessage => td_setMessage "" st
  end.

(** [{ title, description }]. *)
Definition edited_task (st : TaskDetail) : JsValue :=
  JObj [("title", td_title st); ("description", td_description st)].

(** [submit] of [TaskDetail]; [onUpdate] is a prop (in [App], [saveTask]).
    The form is rendered, and [submit] reachable, only for a truthy
    [task]. *)
Definition TaskDetail_submit {P : Type}
    (onUpdate : JsValue -> JsValue -> Handler P unit) (task : JsValue)
    : Handler (TaskDetail * P) unit :=
  body <<- read (fun st : TaskDetail * P => edited_task (fst st)) ;;
  on_fst (set (td_setErr "")) >>
  catch
    (id <<- expr (getProp task "id") ;;
     on_snd (onUpdate id body) >>
     on_fst (set (td_setMessage "Saved")) >>
     on_fst (set (td_setTimeout ClearMessage 1500)))
    (fun e =>
       on_fst (set (td_setErr (or_string (err_message e) "Failed to save")))).

(** *** useAsync *)

(** [loading], [error] ([None] is null) and [data] (null at first). *)
Record Async : Type := mkAsync {
  ua_loading : bool;
  ua_error : option JsError;
  ua_data : JsValue
}.

(** [useState(false)], [useState(null)], [useState(null)]. *)
Definition useAsync_init : Async := mkAsync false None JNull.

Definition ua_setLoading (v : bool) (st : Async) : Async :=
  mkAsync v (ua_error st) (ua_data st).
Definition ua_setError (v : option JsError) (st : Async) : Async :=
  mkAsync (ua_loading st) v (ua_data st).
Definition ua_setData (v : JsValue) (st : Async) : Async :=
  mkAsync (ua_loading st) (ua_error st) v.

(** [run(...args)], [call] being the promise [asyncFn(...args)]. *)
Definition useAsync_run (asyncFn : Promise JsValue) : Handler Async JsValue :=
  set (ua_setLoading true) >>
  set (ua_setError None) >>
  finally
    (catch
       (result <<- call asyncFn ;;
        set (ua_setData result) >>
        hret result)
       (fun e => set (ua_setError (Some e)) >> hthrow e))
    (ua_setLoading false).

End WithRuntime.

End Ui.

(** ** The task/comment store behind the API *)

Module Server.

(** Modelled from the spec: the Task entity of the data model (the backend
    that stores it is not among the sources).  Timestamps are ticks of the
    store's clock. *)
Record Task : Type := mkTask {
  task_id : Z;
  title : string;
  description : option string;
  task_created_at : Z;
  task_updated_at : Z
}.

(** Modelled from the spec: the Comment entity; [comment_task] is its
    [task_id], [comment_author] is [None] when the author is absent. *)
Record Comment : Type := mkComment {
  comment_id : Z;
  comment_task : Z;
  comment_content : string;
  comment_author : option string;
  comment_created_at : Z;
  comment_updated_at : Z
}.

(** Modelled from the spec: the persistent store, two tables in creation
    order, the next ids to assign (ids are never reused) and the clock. *)
Record Store : Type := mkStore {
  tasks : list Task;
  comments : list Comment;
  next_task_id : Z;
  next_comment_id : Z;
  clock : Z
}.

(** Modelled from the spec: the error taxonomy of the API. *)
Inductive ApiError : Type :=
| ValidationError
| NotFoundError
| InternalError.

Inductive Reply (A : Type) : Type :=
| Done (a : A)
| Failed (e : ApiError).
Arguments Done {A} a.
Arguments Failed {A} e.

(** Modelled from the spec: the store before any call; ids start at 1. *)
Definition empty_store : Store := mkStore [] [] 1 1 0.

Definition find_task (id : Z) (s : Store) : option Task :=
  find (fun t => (task_id t =? id)%Z) (tasks s).

Definition find_comment (id : Z) (s : Store) : option Comment :=
  find (fun c => (comment_id c =? id)%Z) (comments s).

(** Modelled from the spec: the client-side cap the spec recommends as the
    maximum length of a comment. *)
Definition max_content_length : nat := 1000.

(** Modelled from the spec: a content is valid when it is not empty and
    within the maximum length. *)
Definition valid_content (content : string) : bool :=
  negb (content =? "")%string
  && (String.length content <=? max_content_length)%nat.

(** Modelled from the spec: [listTasks() -> Task[]], in creation order. *)
Definition listTasks (s : Store) : Reply (list Task) * Store :=
  (Done (tasks s), s).

(** Modelled from the spec: [createTask({title, description?})];
    ValidationError if the title is missing or empty, else a new row with a
    fresh id and both timestamps at the current tick. *)
Definition createTask (new_title : option string)
    (new_description : option string) (s : Store) : Reply Task * Store :=
  match new_title with
  | None => (Failed ValidationError, s)
  | Some ttl =>
      if (ttl =? "")%string then (Failed ValidationError, s)
      else
        let t := mkTask (next_task_id s) ttl new_description
                   (clock s) (clock s) in
        (Done t,
         mkStore (tasks s ++ [t]) (comments s)
           (next_task_id s + 1) (next_comment_id s) (clock s + 1))
  end.

(** Modelled from the spec: [getTask(id)]; NotFoundError if no task has
    that id. *)
Definition getTask (id : Z) (s : Store) : Reply Task * Store :=
  match find_task id s with
  | Some t => (Done t, s)
  | None => (Failed NotFoundError, s)
  end.

(** Modelled from the spec: [updateTask(id, {title?, description?})];
    NotFoundError first, then ValidationError if the title would become
    empty; [updated_at] is refreshed. *)
Definition updateTask (id : Z) (new_title : option string)
    (new_description : option string) (s : Store) : Reply Task * Store :=
  match find_task id s with
  | None => (Failed NotFoundError, s)
  | Some t =>
      let ttl := match new_title with Some x => x | None => title t end in
      if (ttl =? "")%string then (Failed ValidationError, s)
      else
        let t' := mkTask (task_id t) ttl
                    (match new_description with
                     | Some d => Some d
                     | None => description t
                     end)
                    (task_created_at t) (clock s + 1) in
        (Done t',
         mkStore (map (fun x => if (task_id x =? id)%Z then t' else x)
                    (tasks s))
           (comments s) (next_task_id s) (next_comment_id s) (clock s + 1))
  end.

(** Modelled from the spec: [deleteTask(id)]; NotFoundError if missing,
    else the task and every comment that references it go in one step. *)
Definition deleteTask (id : Z) (s : Store) : Reply unit * Store :=
  match find_task id s with
  | None => (Failed NotFoundError, s)
  | Some _ =>
      (Done tt,
       mkStore (filter (fun t => negb (task_id t =? id)%Z) (tasks s))
         (filter (fun c => negb (comment_task c =? id)%Z) (comments s))
         (next_task_id s) (next_comment_id s) (clock s + 1))
  end.

(** Modelled from the spec: [listComments(taskId)]; NotFoundError if the
    task is missing, else the comments of that task only, in creation
    order. *)
Definition listComments (taskId : Z) (s : Store)
    : Reply (list Comment) * Store :=
  match find_task taskId s with
  | None => (Failed NotFoundError, s)
  | Some _ =>
      (Done (filter (fun c => (comment_task c =? taskId)%Z) (comments s)), s)
  end.

(** Modelled from the spec: [createComment(taskId, {content, author?})];
    NotFoundError before any validation of the content. *)
Definition createComment (taskId : Z) (new_content : option string)
    (new_author : option string) (s : Store) : Reply Comment * Store :=
  match find_task taskId s with
  | None => (Failed NotFoundError, s)
  | Some _ =>
      match new_content with
      | None => (Failed ValidationError, s)
      | Some text =>
          if valid_content text then
            let c := mkComment (next_comment_id s) taskId text new_author
                       (clock s) (clock s) in
            (Done c,
             mkStore (tasks s) (comments s ++ [c])
               (next_task_id s) (next_comment_id s + 1) (clock s + 1))
          else (Failed ValidationError, s)
      end
  end.

(** Modelled from the spec: the not-found rule of the comment operations.
    The comment [commentId] of task [taskId], if the task exists, the
    comment exists and the comment belongs to that task. *)
Definition owned_comment (taskId commentId : Z) (s : Store)
    : option Comment :=
  match find_task taskId s, find_comment commentId s with
  | Some _, Some c => if (comment_task c =? taskId)%Z then Some c else None
  | _, _ => None
  end.

(** Modelled from the spec: [updateComment(taskId, commentId, {content?,
    author?})]; an [author] key holding null clears the author. *)
Definition updateComment (taskId commentId : Z) (new_content : option string)
    (new_author : option (option string)) (s : Store)
    : Reply Comment * Store :=
  match owned_comment taskId commentId s with
  | None => (Failed NotFoundError, s)
  | Some c =>
      let text := match new_content with
                  | Some x => x
                  | None => comment_content c
                  end in
      if valid_content text then
        let c' := mkComment (comment_id c) (comment_task c) text
                    (match new_author with
                     | Some a => a
                     | None => comment_author c
                     end)
                    (comment_created_at c) (clock s + 1) in
        (Done c',
         mkStore (tasks s)
           (map (fun x => if (comment_id x =? commentId)%Z then c' else x)
              (comments s))
           (next_task_id s) (next_comment_id s) (clock s + 1))
      else (Failed ValidationError, s)
  end.

(** Modelled from the spec: [deleteComment(taskId, commentId)], with the
    not-found cases of [updateComment]. *)
Definition deleteComment (taskId commentId : Z) (s : Store)
    : Reply unit * Store :=
  match owned_comment taskId commentId s with
  | None => (Failed NotFoundError, s)
  | Some _ =>
      (Done tt,
       mkStore (tasks s)
         (filter (fun c => negb (comment_id c =? commentId)%Z) (comments s))
         (next_task_id s) (next_comment_id s) (clock s + 1))
  end.

(** Modelled from the spec: one call of the API, any of the nine
    operations with its arguments. *)
Inductive Call : Type :=
| ListTasks
| CreateTask (new_title new_description : option string)
| GetTask (id : Z)
| UpdateTask (id : Z) (new_title new_description : option string)
| DeleteTask (id : Z)
| ListComments (taskId : Z)
| CreateComment (taskId : Z) (new_content new_author : option string)
| UpdateComment (taskId commentId : Z) (new_content : option string)
    (new_author : option (option string))
| DeleteComment (taskId commentId : Z).

(** The store after a call, whatever it replied. *)
Definition step (s : Store) (c : Call) : Store :=
  match c with
  | ListTasks => snd (listTasks s)
  | CreateTask t d => snd (createTask t d s)
  | GetTask id => snd (getTask id s)
  | UpdateTask id t d => snd (updateTask id t d s)
  | DeleteTask id => snd (deleteTask id s)
  | ListComments id => snd (listComments id s)
  | CreateComment id c a => snd (createComment id c a s)
  | UpdateComment id cid c a => snd (updateComment id cid c a s)
  | DeleteComment id cid => snd (deleteComment id cid s)
  end.

(** A reachable state: the empty store after any sequence of calls. *)
Definition after (calls : list Call) : Store :=
  fold_left step calls empty_store.

(** A comment whose [task_id] references no existing task. *)
Definition orphaned (s : Store) (c : Comment) : bool :=
  negb (existsb (fun t => (task_id t =? comment_task c)%Z) (tasks s)).

Definition no_orphans (s : Store) : bool :=
  forallb (fun c => negb (orphaned s c)) (comments s).

End Server.

(** ** Vocabulary of the statements *)

(** What a run resolved to, and the requests it issued, in order. *)
Definition outcome {A W} (r : A * W * list Request) : A := fst (fst r).
Definition requests {A W} (r : A * W * list Request) : list Request := snd r.

(** The state a handler's run leaves, and whether it resolved or threw. *)
Definition final_state {S A W} (r : (Result A * S) * W * list Request) : S :=
  snd (outcome r).
Definition completion {S A W} (r : (Result A * S) * W * list Request)
    : Result A :=
  fst (outcome r).

(** The error body of the interface: [{error: {message: string, ...}}];
    the message when the body has that shape. *)
Definition error_shape (body : JsValue) : option string :=
  match body with
  | JObj fields =>
      match lookup "error" fields with
      | JObj error =>
          match lookup "message" error with
          | JStr m => Some m
          | _ => None
          end
      | _ => None
      end
  | _ => None
  end.

(** An absent author: [null] or [undefined], as opposed to a text. *)
Definition absent (author : JsValue) : bool := is_nullish author.


(** [v.k] where it cannot throw, [undefined] where it would. *)
Definition field (v : JsValue) (k : string) : JsValue :=
  match getProp v k with
  | Ok x => x
  | Throw _ => JUndefined
  end.

(** The value of [body && body.error && body.error.message]. *)
Definition message_value (body : JsValue) : JsValue :=
  js_and body (js_and (field body "error")
                 (field (field body "error") "message")).

(** What [http] makes of the outcome of its [fetch]. *)
Definition http_result (JSON_parse : string -> option JsValue)
    (o : FetchOutcome) : Result JsValue :=
  match o with
  | Rejected e => Throw e
  | Responded res =>
      let body := Api.parse_body JSON_parse (res_text res) in
      if res_ok res then Ok body
      else Throw (mkError
                    (if truthy (message_value body)
                     then toString (message_value body)
                     else res_statusText res)
                    (Some (res_status res)) (Some body))
  end.

(** The request [http(path, options)] hands to [fetch]. *)
Definition http_request (REACT_APP_API_URL : option string)
    (path : string) (options : RequestInit) : Request :=
  mkRequest (String.append (Api.BASE REACT_APP_API_URL) path)
    (Api.http_init options).

(** The run of [p] issues exactly one request, with this method and URL. *)
Definition issues {A W} (network : W -> Request -> FetchOutcome * W)
    (p : Prog A) (w : W) (method url : string) : Prop :=
  exists rq, requests (run network p w) = [rq]
             /\ req_method rq = method /\ req_url rq = url.

(** Responses of a scripted network. *)
Definition ok_response (text : string) : FetchOutcome :=
  Responded (mkResponse true 200 "OK" text).
Definition no_content : FetchOutcome :=
  Responded (mkResponse true 204 "No Content" "").
Definition error_response (status : Z) (statusText text : string)
    : FetchOutcome :=
  Responded (mkResponse false status statusText text).

(** A task and a comment as the server serializes them. *)
Definition task_json (id : Z) (title : string) : JsValue :=
  JObj [("id", JNum id); ("title", JStr title)].
Definition comment_json (id : Z) (content : string) (author : JsValue)
    : JsValue :=
  JObj [("id", JNum id); ("content", JStr content); ("author", author)].

(** The headers [http] adds when the caller names none. *)
Definition json_headers : list (string * string) :=
  [("Content-Type", "application/json")].

(** The headers and the body of each request of a run. *)
Definition payloads {A W} (r : A * W * list Request)
    : list (option (list (string * string)) * option string) :=
  map (fun rq => (init_headers (req_init rq), init_body (req_init rq)))
    (requests r).

(** A network that is down: every request is rejected. *)
Definition network_down : list FetchOutcome := [].

(** The rejection of [fetch] on a network that is down. *)
Definition fetch_failed : JsError := type_error "Failed to fetch".

(** An [App] listing tasks 1 and 2, with task 1 selected. *)
Definition two_tasks : Ui.App :=
  Ui.mkApp (JArr [task_json 1 "a"; task_json 2 "b"]) (JNum 1) false "".

(** * Properties *)

(** ** Values *)

Lemma truthy_not_nullish v : truthy v = true -> is_nullish v = false.
Proof. destruct v; simpl; congruence. Qed.

Lemma getProp_field v k : is_nullish v = false -> getProp v k = Ok (field v k).
Proof.
  unfold field. destruct v; simpl; try discriminate; intros _; try reflexivity;
    destruct (k =? "length")%string; reflexivity.
Qed.

Lemma strict_eq_true a b : strict_eq a b = true -> a = b.
Proof.
  destruct a, b; simpl; try discriminate; try reflexivity; intros H.
  - apply Bool.eqb_prop in H. now subst.
  - apply Z.eqb_eq in H. now subst.
  - apply String.eqb_eq in H. now subst.
Qed.

Lemma strict_eq_refl a : is_primitive a = true -> strict_eq a a = true.
Proof.
  destruct a; simpl; try discriminate; intros _; try reflexivity.
  - apply Bool.eqb_reflx.
  - apply Z.eqb_refl.
  - apply String.eqb_refl.
Qed.

Lemma strict_eq_false a b :
  is_primitive b = true -> strict_eq a b = false -> a <> b.
Proof.
  intros Hb Hne Heq. subst a. rewrite (strict_eq_refl _ Hb) in Hne.
  discriminate.
Qed.

Lemma error_message_of_value body :
  Api.error_message_of body = Ok (message_value body).
Proof.
  unfold Api.error_message_of, message_value, js_and.
  destruct (truthy body) eqn:Hb; [ | reflexivity ].
  rewrite (getProp_field _ "error" (truthy_not_nullish _ Hb)). simpl.
  destruct (truthy (field body "error")) eqn:He; [ | reflexivity ].
  now rewrite (getProp_field _ "message" (truthy_not_nullish _ He)).
Qed.

Lemma message_value_shape body m :
  error_shape body = Some m -> m <> "" ->
  message_value body = JStr m /\ truthy (message_value body) = true.
Proof.
  unfold error_shape. destruct body; try discriminate.
  destruct (lookup "error" fields) eqn:He; try discriminate.
  destruct (lookup "message" fields0) eqn:Hm; try discriminate.
  intros [= ->] Hne.
  assert (Hv : message_value (JObj fields) = JStr m).
  { unfold message_value, js_and, field. simpl. rewrite He. simpl.
    now rewrite Hm. }
  split; [ exact Hv | ]. rewrite Hv. simpl.
  destruct (String.eqb_spec m ""); [ contradiction | reflexivity ].
Qed.

(** ** api.js *)

Section ApiFacts.
Variable REACT_APP_API_URL : option string.
Variable JSON_parse : string -> option JsValue.
Variable World : Type.
Variable network : World -> Request -> FetchOutcome * World.

Local Abbreviation BASE := (Api.BASE REACT_APP_API_URL).
Local Abbreviation http := (Api.http REACT_APP_API_URL JSON_parse).
Local Abbreviation parse_body := (Api.parse_body JSON_parse).

Lemma run_http path options w :
  run network (http path options) w =
  let rq := mkRequest (String.append BASE path) (Api.http_init options) in
  (http_result JSON_parse (fst (network w rq)), snd (network w rq), [rq]).
Proof.
  unfold Api.http. simpl.
  destruct (network w _) as [o w1]. simpl.
  destruct o as [res | e]; simpl; [ | reflexivity ].
  destruct (res_ok res); simpl; [ reflexivity | ].
  unfold eval, await. rewrite error_message_of_value. reflexivity.
Qed.

Lemma run_http_answered path options w o w' :
  network w (http_request REACT_APP_API_URL path options) = (o, w') ->
  run network (http path options) w =
  (http_result JSON_parse o, w',
   [http_request REACT_APP_API_URL path options]).
Proof.
  intros H. rewrite run_http. unfold http_request in H. simpl. now rewrite H.
Qed.

Lemma parse_body_empty : parse_body "" = JNull.
Proof. reflexivity. Qed.

Lemma parse_body_parsed text v :
  text <> "" -> JSON_parse text = Some v -> parse_body text = v.
Proof.
  intros Hne Hp. unfold Api.parse_body.
  destruct (String.eqb_spec text ""); [ contradiction | now rewrite Hp ].
Qed.

Lemma parse_body_raw text :
  text <> "" -> JSON_parse text = None -> parse_body text = JStr text.
Proof.
  intros Hne Hp. unfold Api.parse_body.
  destruct (String.eqb_spec text ""); [ contradiction | now rewrite Hp ].
Qed.

(** C10: on a successful response [http] resolves to the parsed body when
    the text is non-empty and parses, to the raw text when it does not
    parse, and to [null] when it is empty; so [deleteTask] and
    [deleteComment] resolve to [null] on an empty 204 response.  On a
    response that is not ok it throws, and every error it throws for a
    response carries [res.status] in [err.status] and the body in
    [err.payload]. *)
Theorem http_resolves_to_body :
  (forall path options w res w',
      network w (http_request REACT_APP_API_URL path options)
      = (Responded res, w') ->
      let result := outcome (run network (http path options) w) in
      (res_ok res = true ->
       (res_text res = "" -> result = Ok JNull)
       /\ (forall v, res_text res <> "" ->
                     JSON_parse (res_text res) = Some v -> result = Ok v)
       /\ (res_text res <> "" -> JSON_parse (res_text res) = None ->
           result = Ok (JStr (res_text res))))
      /\ (res_ok res = false -> exists e, result = Throw e)
      /\ (forall e, result = Throw e ->
                    err_status e = Some (res_status res)
                    /\ err_payload e = Some (parse_body (res_text res))))
  /\ (forall id w res w',
         network w (http_request REACT_APP_API_URL
                      (String.append "/api/tasks/" (toString id))
                      (mkInit None (Some "DELETE") None))
         = (Responded res, w') ->
         res_ok res = true -> res_text res = "" ->
         outcome (run network
                    (Api.deleteTask REACT_APP_API_URL JSON_parse id) w)
         = Ok JNull)
  /\ (forall taskId commentId w res w',
         network w (http_request REACT_APP_API_URL
                      (Api.comment_path taskId commentId)
                      (mkInit None (Some "DELETE") None))
         = (Responded res, w') ->
         res_ok res = true -> res_text res = "" ->
         outcome (run network
                    (Api.deleteComment REACT_APP_API_URL JSON_parse
                       taskId commentId) w)
         = Ok JNull).
Proof.
  split; [ | split ].
  - intros path options w res w' Hnet result. subst result.
    rewrite (run_http_answered Hnet). unfold outcome. simpl.
    split; [ | split ].
    + intros Hok. rewrite Hok. split; [ | split ].
      * intros ->. reflexivity.
      * intros v Hne Hp. now rewrite (parse_body_parsed Hne Hp).
      * intros Hne Hp. now rewrite (parse_body_raw Hne Hp).
    + intros Hok. rewrite Hok. eexists. reflexivity.
    + intros e. destruct (res_ok res); [ discriminate | ].
      intros [= <-]. split; reflexivity.
  - intros id w res w' Hnet Hok Htext. unfold Api.deleteTask.
    rewrite (run_http_answered Hnet). unfold outcome. simpl.
    now rewrite Hok, Htext.
  - intros taskId commentId w res w' Hnet Hok Htext. unfold Api.deleteComment.
    rewrite (run_http_answered Hnet). unfold outcome. simpl.
    now rewrite Hok, Htext.
Qed.

(** C3 (as the code has it): for a response that is not ok, [http] throws
    an error whose message is [body.error.message] when that is a
    non-empty string, and [res.statusText] when the body is empty, when it
    does not parse, and whenever [body && body.error && body.error.message]
    is falsy (a missing, null or empty message); a truthy message of
    another type is converted to a string. *)
Theorem http_error_message :
  forall path options w res w',
    network w (http_request REACT_APP_API_URL path options)
    = (Responded res, w') ->
    res_ok res = false ->
    exists e,
      outcome (run network (http path options) w) = Throw e
      /\ (forall m, error_shape (parse_body (res_text res)) = Some m ->
                    m <> "" -> err_message e = m)
      /\ (res_text res = "" -> err_message e = res_statusText res)
      /\ (res_text res <> "" -> JSON_parse (res_text res) = None ->
          err_message e = res_statusText res)
      /\ (truthy (message_value (parse_body (res_text res))) = false ->
          err_message e = res_statusText res)
      /\ (truthy (message_value (parse_body (res_text res))) = true ->
          err_message e = toString (message_value (parse_body (res_text res)))).
Proof.
  intros path options w res w' Hnet Hok.
  rewrite (run_http_answered Hnet). unfold outcome. simpl. rewrite Hok.
  eexists. split; [ reflexivity | ]. simpl.
  split; [ | split; [ | split; [ | split ] ] ].
  - intros m Hshape Hne.
    destruct (message_value_shape _ Hshape Hne) as [Hv Ht].
    rewrite Ht, Hv. reflexivity.
  - intros ->. reflexivity.
  - intros Hne Hp. rewrite (parse_body_raw Hne Hp).
    unfold message_value, js_and. simpl.
    destruct (String.eqb_spec (res_text res) ""); [ contradiction | ].
    reflexivity.
  - intros ->. reflexivity.
  - intros ->. reflexivity.
Qed.

Lemma issues_http path options w :
  issues network (http path options) w
    (match init_method options with Some m => m | None => "GET" end)
    (String.append BASE path).
Proof.
  unfold issues. rewrite run_http. eexists. split; [ reflexivity | ].
  split; reflexivity.
Qed.

(** C8: each of the eight API functions issues exactly one request, with
    the method and path of the interface table, the ids interpolated by
    string conversion (the URL is [BASE] followed by the path). *)
Theorem api_methods_and_paths :
  forall (w : World) (id taskId commentId body arg : JsValue),
    is_nullish arg = false ->
    issues network (Api.listTasks REACT_APP_API_URL JSON_parse) w
      "GET" (String.append BASE "/api/tasks")
    /\ issues network (Api.createTask REACT_APP_API_URL JSON_parse arg) w
         "POST" (String.append BASE "/api/tasks")
    /\ issues network (Api.updateTask REACT_APP_API_URL JSON_parse id body) w
         "PUT" (String.append BASE (String.append "/api/tasks/" (toString id)))
    /\ issues network (Api.deleteTask REACT_APP_API_URL JSON_parse id) w
         "DELETE"
         (String.append BASE (String.append "/api/tasks/" (toString id)))
    /\ issues network (Api.listComments REACT_APP_API_URL JSON_parse taskId) w
         "GET"
         (String.append BASE
            (String.append "/api/tasks/"
               (String.append (toString taskId) "/comments")))
    /\ issues network
         (Api.createComment REACT_APP_API_URL JSON_parse taskId arg) w
         "POST"
         (String.append BASE
            (String.append "/api/tasks/"
               (String.append (toString taskId) "/comments")))
    /\ issues network
         (Api.updateComment REACT_APP_API_URL JSON_parse taskId commentId body)
         w "PUT"
         (String.append BASE
            (String.append
               (String.append "/api/tasks/"
                  (String.append (toString taskId) "/comments"))
               (String.append "/" (toString commentId))))
    /\ issues network
         (Api.deleteComment REACT_APP_API_URL JSON_parse taskId commentId)
         w "DELETE"
         (String.append BASE
            (String.append
               (String.append "/api/tasks/"
                  (String.append (toString taskId) "/comments"))
               (String.append "/" (toString commentId)))).
Proof.
  intros w id taskId commentId body arg Harg.
  repeat split; try apply issues_http.
  - unfold Api.createTask.
    rewrite !(getProp_field _ _ Harg). apply issues_http.
  - unfold Api.createComment.
    rewrite !(getProp_field _ _ Harg). apply issues_http.
Qed.

End ApiFacts.

(** ** Runs *)

Unset Implicit Arguments.

Section RunFacts.
Variable World : Type.
Variable network : World -> Request -> FetchOutcome * World.

Lemma run_pbind {A B} (p : Prog A) (f : A -> Prog B) (w : World) :
  run network (pbind p f) w =
  (outcome (run network (f (outcome (run network p w)))
              (snd (fst (run network p w)))),
   snd (fst (run network (f (outcome (run network p w)))
               (snd (fst (run network p w))))),
   requests (run network p w)
   ++ requests (run network (f (outcome (run network p w)))
                  (snd (fst (run network p w))))).
Proof.
  revert w. induction p as [a | rq k IH]; intros w.
  - simpl. unfold outcome, requests. simpl.
    now destruct (run network (f a) w) as [[b w2] l2].
  - simpl. destruct (network w rq) as [o w1]. rewrite IH.
    destruct (run network (k o) w1) as [[a w2] l1]. simpl.
    unfold outcome, requests. simpl.
    now destruct (run network (f a) w2) as [[b w3] l2].
Qed.

Lemma requests_pbind {A B} (p : Prog A) (f : A -> Prog B) (w : World) :
  requests (run network (pbind p f) w)
  = requests (run network p w)
    ++ requests (run network (f (outcome (run network p w)))
                   (snd (fst (run network p w)))).
Proof. rewrite run_pbind. reflexivity. Qed.

Lemma run_pbind_eq {A B} (p : Prog A) (f : A -> Prog B) w a w1 l1 b w2 l2 :
  run network p w = (a, w1, l1) ->
  run network (f a) w1 = (b, w2, l2) ->
  run network (pbind p f) w = (b, w2, l1 ++ l2).
Proof.
  intros Hp Hf. rewrite run_pbind, Hp. unfold outcome, requests. simpl.
  now rewrite Hf.
Qed.

(** [await p] inside a handler: the state is untouched while [p] runs. *)
Lemma run_call {S A} (p : Promise A) (s : S) w r w1 l1 :
  run network p w = (r, w1, l1) ->
  run network (call p s) w = ((r, s), w1, l1).
Proof.
  intros Hp. unfold call.
  rewrite (run_pbind_eq p _ w r w1 l1 (r, s) w1 [] Hp);
    [ now rewrite app_nil_r | reflexivity ].
Qed.

Lemma run_hbind {S A B} (m : Handler S A) (f : A -> Handler S B) s w
    a s1 w1 l1 r w2 l2 :
  run network (m s) w = ((Ok a, s1), w1, l1) ->
  run network (f a s1) w1 = (r, w2, l2) ->
  run network (hbind m f s) w = (r, w2, l1 ++ l2).
Proof.
  intros Hm Hf. unfold hbind.
  now apply (run_pbind_eq (m s) _ w (Ok a, s1) w1 l1).
Qed.

Lemma run_hbind_throw {S A B} (m : Handler S A) (f : A -> Handler S B) s w
    e s1 w1 l1 :
  run network (m s) w = ((Throw e, s1), w1, l1) ->
  run network (hbind m f s) w = ((Throw e, s1), w1, l1).
Proof.
  intros Hm. unfold hbind.
  rewrite (run_pbind_eq (m s) _ w _ w1 l1 (Throw e, s1) w1 [] Hm);
    [ now rewrite app_nil_r | reflexivity ].
Qed.

Lemma run_catch_ok {S A} (m : Handler S A) h s w a s1 w1 l1 :
  run network (m s) w = ((Ok a, s1), w1, l1) ->
  run network (catch m h s) w = ((Ok a, s1), w1, l1).
Proof.
  intros Hm. unfold catch.
  rewrite (run_pbind_eq (m s) _ w _ w1 l1 (Ok a, s1) w1 [] Hm);
    [ now rewrite app_nil_r | reflexivity ].
Qed.

Lemma run_catch_throw {S A} (m : Handler S A) h s w e s1 w1 l1 r w2 l2 :
  run network (m s) w = ((Throw e, s1), w1, l1) ->
  run network (h e s1) w1 = (r, w2, l2) ->
  run network (catch m h s) w = (r, w2, l1 ++ l2).
Proof.
  intros Hm Hh. unfold catch.
  now apply (run_pbind_eq (m s) _ w (Throw e, s1) w1 l1).
Qed.

Lemma run_finally {S A} (m : Handler S A) f s w r s1 w1 l1 :
  run network (m s) w = ((r, s1), w1, l1) ->
  run network (finally m f s) w = ((r, f s1), w1, l1).
Proof.
  intros Hm. unfold finally.
  rewrite (run_pbind_eq (m s) _ w _ w1 l1 (r, f s1) w1 [] Hm);
    [ now rewrite app_nil_r | reflexivity ].
Qed.

End RunFacts.

(** Steps through the run of a handler: each [hbind], [catch] and [finally]
    is split with the lemmas above; an awaited call is looked up among the
    hypotheses; what remains computes. *)
Ltac rewrite_known :=
  repeat match goal with
         | H : getProp _ _ = _ |- _ => rewrite H
         | H : getFirst _ = _ |- _ => rewrite H
         | H : truthy _ = _ |- _ => rewrite H
         | H : strict_eq _ _ = _ |- _ => rewrite H
         | H : Ui.filterM _ _ = _ |- _ => rewrite H
         | H : Ui.mapM _ _ = _ |- _ => rewrite H
         | H : Ui.tasks _ = _ |- _ => rewrite H
         end.

Ltac run_handler :=
  cbv beta;
  lazymatch goal with
  | |- run _ (hbind _ _ _) _ = _ =>
      first [ eapply run_hbind; [ run_handler | run_handler ]
            | eapply run_hbind_throw; run_handler ]
  | |- run _ (catch _ _ _) _ = _ =>
      first [ eapply run_catch_ok; run_handler
            | eapply run_catch_throw; [ run_handler | run_handler ] ]
  | |- run _ (finally _ _ _) _ = _ => eapply run_finally; run_handler
  | |- run _ (call _ _) _ = _ => eapply run_call; eassumption
  | |- run _ ((if _ then _ else _) _) _ = _ =>
      rewrite_known;
      try lazymatch goal with
          | |- run _ ((if ?c then _ else _) _) _ = _ =>
              let c' := eval simpl in c in change c with c'; cbv iota
          end;
      lazymatch goal with
      | |- run _ ((if _ then _ else _) _) _ = _ => fail "undecided test"
      | |- _ => run_handler
      end
  | |- _ =>
      unfold expr, set, read, hret, update, Ui.updateTasks;
      rewrite_known; simpl; rewrite_known; reflexivity
  end.

(** ** App.js *)

Section UiFacts.
Variable REACT_APP_API_URL : option string.
Variable JSON_parse : string -> option JsValue.
Variable World : Type.
Variable network : World -> Request -> FetchOutcome * World.

Local Abbreviation BASE := (Api.BASE REACT_APP_API_URL).
Local Abbreviation listTasks := (Api.listTasks REACT_APP_API_URL JSON_parse).
Local Abbreviation createTask :=
  (Api.createTask REACT_APP_API_URL JSON_parse).
Local Abbreviation updateTask :=
  (Api.updateTask REACT_APP_API_URL JSON_parse).
Local Abbreviation deleteTask :=
  (Api.deleteTask REACT_APP_API_URL JSON_parse).
Local Abbreviation listComments :=
  (Api.listComments REACT_APP_API_URL JSON_parse).
Local Abbreviation createComment :=
  (Api.createComment REACT_APP_API_URL JSON_parse).
Local Abbreviation updateComment :=
  (Api.updateComment REACT_APP_API_URL JSON_parse).
Local Abbreviation deleteComment :=
  (Api.deleteComment REACT_APP_API_URL JSON_parse).
Local Abbreviation addTask := (Ui.addTask REACT_APP_API_URL JSON_parse).
Local Abbreviation removeTask := (Ui.removeTask REACT_APP_API_URL JSON_parse).
Local Abbreviation saveTask := (Ui.saveTask REACT_APP_API_URL JSON_parse).
Local Abbreviation fetchTasks := (Ui.fetchTasks REACT_APP_API_URL JSON_parse).

Lemma run_addTask body st w res w' log newTask items :
  run network (createTask body) w = (Ok res, w', log) ->
  getProp res "data" = Ok newTask ->
  is_nullish newTask = false ->
  Ui.tasks st = JArr items ->
  run network (addTask body st) w =
  ((Ok tt,
    Ui.mkApp (JArr (items ++ [newTask])) (field newTask "id")
      (Ui.loading st) (Ui.err st)),
   w', log).
Proof.
  intros Hcall Hdata Hnew Htasks.
  pose proof (getProp_field newTask "id" Hnew) as Hid.
  unfold Ui.addTask.
  etransitivity; [ run_handler | ].
  simpl. now rewrite ?app_nil_r.
Qed.

(** C9: after a successful [createTask] the task the server returned is
    appended at the end of the local list, the tasks already listed stay as
    they were, and the new task becomes the selected one. *)
Theorem addTask_appends_and_selects :
  forall body st w res w' log newTask items,
    run network (createTask body) w = (Ok res, w', log) ->
    getProp res "data" = Ok newTask ->
    is_nullish newTask = false ->
    Ui.tasks st = JArr items ->
    completion (run network (addTask body st) w) = Ok tt
    /\ Ui.tasks (final_state (run network (addTask body st) w))
       = JArr (items ++ [newTask])
    /\ Ui.selectedId (final_state (run network (addTask body st) w))
       = field newTask "id".
Proof.
  intros body st w res w' log newTask items Hcall Hdata Hnew Htasks.
  rewrite (run_addTask body st w res w' log newTask items
             Hcall Hdata Hnew Htasks).
  repeat split.
Qed.

Lemma filterM_without id items :
  Forall (fun t => is_nullish t = false) items ->
  Ui.filterM (fun t => t_id <- getProp t "id" ;;
                       Ok (negb (strict_eq t_id id))) items
  = Ok (filter (fun t => negb (strict_eq (field t "id") id)) items).
Proof.
  induction 1 as [ | t rest Ht _ IH ]; [ reflexivity | ].
  simpl. rewrite (getProp_field t "id" Ht). simpl. rewrite IH. reflexivity.
Qed.

Lemma mapM_replace id updated items :
  Forall (fun t => is_nullish t = false) items ->
  Ui.mapM (fun t => t_id <- getProp t "id" ;;
                    Ok (if strict_eq t_id id then updated else t)) items
  = Ok (map (fun t => if strict_eq (field t "id") id then updated else t)
          items).
Proof.
  induction 1 as [ | t rest Ht _ IH ]; [ reflexivity | ].
  simpl. rewrite (getProp_field t "id" Ht). simpl. rewrite IH. reflexivity.
Qed.

Lemma run_removeTask id st w res w' log items :
  run network (deleteTask id) w = (Ok res, w', log) ->
  Ui.tasks st = JArr items ->
  Forall (fun t => is_nullish t = false) items ->
  run network (removeTask id st) w =
  ((Ok tt,
    Ui.mkApp
      (JArr (filter (fun t => negb (strict_eq (field t "id") id)) items))
      (if strict_eq (Ui.selectedId st) id then JNull else Ui.selectedId st)
      (Ui.loading st) (Ui.err st)),
   w', log).
Proof.
  intros Hcall Htasks Hitems.
  pose proof (filterM_without id items Hitems) as Hfilter.
  unfold Ui.removeTask.
  destruct (strict_eq (Ui.selectedId st) id) eqn:Hsel.
  - etransitivity; [ run_handler | ]. simpl. now rewrite !app_nil_r.
  - etransitivity; [ run_handler | ]. simpl. rewrite !app_nil_r.
    now destruct st.
Qed.

(** C4: after [removeTask(id)] has completed, no task of the local list has
    the id [id]; the selection is [null] if [id] was the selected id and is
    unchanged if another id was selected. *)
Theorem removeTask_removes_and_clears :
  forall id st w res w' log items,
    run network (deleteTask id) w = (Ok res, w', log) ->
    Ui.tasks st = JArr items ->
    Forall (fun t => is_nullish t = false) items ->
    is_primitive id = true ->
    completion (run network (removeTask id st) w) = Ok tt
    /\ Ui.tasks (final_state (run network (removeTask id st) w))
       = JArr (filter (fun t => negb (strict_eq (field t "id") id)) items)
    /\ (forall t,
           In t (filter (fun t => negb (strict_eq (field t "id") id)) items)
           -> field t "id" <> id)
    /\ (Ui.selectedId st = id ->
        Ui.selectedId (final_state (run network (removeTask id st) w))
        = JNull)
    /\ (Ui.selectedId st <> id ->
        Ui.selectedId (final_state (run network (removeTask id st) w))
        = Ui.selectedId st).
Proof.
  intros id st w res w' log items Hcall Htasks Hitems Hprim.
  rewrite (run_removeTask id st w res w' log items Hcall Htasks Hitems).
  unfold completion, final_state, outcome. simpl.
  split; [ reflexivity | ]. split; [ reflexivity | ]. split; [ | split ].
  - intros t Hin. apply filter_In in Hin. destruct Hin as [_ Hne].
    apply strict_eq_false; [ exact Hprim | ].
    now destruct (strict_eq (field t "id") id).
  - intros ->. now rewrite (strict_eq_refl id Hprim).
  - intros Hne. destruct (strict_eq (Ui.selectedId st) id) eqn:Heq;
      [ | reflexivity ].
    apply strict_eq_true in Heq. contradiction.
Qed.

Lemma truthy_length (items : list JsValue) :
  truthy (JNum (Z.of_nat (List.length items)))
  = match items with [] => false | _ :: _ => true end.
Proof. destruct items; reflexivity. Qed.




Lemma run_saveTask id body st w res w' log updated items :
  run network (updateTask id body) w = (Ok res, w', log) ->
  getProp res "data" = Ok updated ->
  Ui.tasks st = JArr items ->
  Forall (fun t => is_nullish t = false) items ->
  run network (saveTask id body st) w =
  ((Ok tt,
    Ui.mkApp
      (JArr (map (fun t => if strict_eq (field t "id") id then updated else t)
               items))
      (Ui.selectedId st) (Ui.loading st) (Ui.err st)),
   w', log).
Proof.
  intros Hcall Hdata Htasks Hitems.
  pose proof (mapM_replace id updated items Hitems) as Hmap.
  unfold Ui.saveTask.
  etransitivity; [ run_handler | ].
  simpl. now rewrite ?app_nil_r.
Qed.

Local Abbreviation fetchComments :=
  (Ui.fetchComments REACT_APP_API_URL JSON_parse).
Local Abbreviation add := (Ui.add REACT_APP_API_URL JSON_parse).
Local Abbreviation save := (Ui.save REACT_APP_API_URL JSON_parse).
Local Abbreviation remove := (Ui.remove REACT_APP_API_URL JSON_parse).

Lemma run_listComments taskId w :
  requests (run network (listComments taskId) w)
  = [http_request REACT_APP_API_URL (Api.comments_path taskId) no_options].
Proof. unfold Api.listComments. now rewrite run_http. Qed.

Lemma run_fetchComments taskId st w res w' log data :
  run network (listComments taskId) w = (Ok res, w', log) ->
  getProp res "data" = Ok data ->
  run network (fetchComments taskId st) w =
  ((Ok tt, Ui.mkCommentList data (Ui.content st) (Ui.author st) false ""),
   w', log).
Proof.
  intros Hcall Hdata. unfold Ui.fetchComments.
  etransitivity; [ run_handler | ].
  simpl. now rewrite ?app_nil_r.
Qed.

Lemma run_add taskId st w r1 w1 log1 res w2 log2 data :
  run network (createComment taskId (Ui.new_comment st)) w
  = (Ok r1, w1, log1) ->
  run network (listComments taskId) w1 = (Ok res, w2, log2) ->
  getProp res "data" = Ok data ->
  run network (add taskId st) w =
  ((Ok tt, Ui.mkCommentList data "" "" false ""), w2, log1 ++ log2).
Proof.
  intros Hcall Hlist Hdata. unfold Ui.add.
  etransitivity.
  - eapply run_hbind; [ reflexivity | ]. cbv beta.
    eapply run_hbind; [ reflexivity | ]. cbv beta.
    eapply run_catch_ok.
    eapply run_hbind; [ eapply run_call; exact Hcall | ]. cbv beta.
    eapply run_hbind; [ reflexivity | ]. cbv beta.
    eapply run_hbind; [ reflexivity | ]. cbv beta.
    eapply run_fetchComments; eassumption.
  - simpl. now rewrite ?app_nil_r.
Qed.

Lemma run_save taskId id body st w r1 w1 log1 res w2 log2 data :
  run network (updateComment taskId id body) w = (Ok r1, w1, log1) ->
  run network (listComments taskId) w1 = (Ok res, w2, log2) ->
  getProp res "data" = Ok data ->
  run network (save taskId id body st) w =
  ((Ok tt, Ui.mkCommentList data (Ui.content st) (Ui.author st) false ""),
   w2, log1 ++ log2).
Proof.
  intros Hcall Hlist Hdata. unfold Ui.save.
  etransitivity.
  - eapply run_hbind; [ reflexivity | ]. cbv beta.
    eapply run_catch_ok.
    eapply run_hbind; [ eapply run_call; exact Hcall | ]. cbv beta.
    eapply run_fetchComments; eassumption.
  - simpl. now rewrite ?app_nil_r.
Qed.

Lemma run_remove taskId id st w r1 w1 log1 res w2 log2 data :
  run network (deleteComment taskId id) w = (Ok r1, w1, log1) ->
  run network (listComments taskId) w1 = (Ok res, w2, log2) ->
  getProp res "data" = Ok data ->
  run network (remove taskId id st) w =
  ((Ok tt, Ui.mkCommentList data (Ui.content st) (Ui.author st) false ""),
   w2, log1 ++ log2).
Proof.
  intros Hcall Hlist Hdata. unfold Ui.remove.
  etransitivity.
  - eapply run_hbind; [ reflexivity | ]. cbv beta.
    eapply run_catch_ok.
    eapply run_hbind; [ eapply run_call; exact Hcall | ]. cbv beta.
    eapply run_fetchComments; eassumption.
  - simpl. now rewrite ?app_nil_r.
Qed.

Lemma requests_of {A} (p : Prog A) w a w1 log :
  run network p w = (a, w1, log) -> requests (run network p w) = log.
Proof. now intros ->. Qed.

(** [fetchComments] issues its one request and never throws, whatever the
    answer. *)
Lemma fetchComments_run taskId st w :
  exists st' w',
    run network (fetchComments taskId st) w
    = ((Ok tt, st'), w',
       [http_request REACT_APP_API_URL (Api.comments_path taskId) no_options]).
Proof.
  unfold Ui.fetchComments, hbind, set, finally, catch, call, expr,
    Api.listComments, Api.http.
  simpl pbind. simpl run. unfold http_request.
  destruct (network w _) as [o w1].
  destruct o as [res | e]; simpl.
  - destruct (res_ok res); simpl.
    + destruct (getProp _ "data"); simpl; eauto.
    + unfold eval, await. rewrite error_message_of_value. simpl. eauto.
  - eauto.
Qed.

Lemma add_requests taskId st w r1 w1 log1 :
  run network (createComment taskId (Ui.new_comment st)) w
  = (Ok r1, w1, log1) ->
  requests (run network (add taskId st) w)
  = log1 ++ [http_request REACT_APP_API_URL
               (Api.comments_path taskId) no_options].
Proof.
  intros Hcall.
  destruct (fetchComments_run taskId
              (Ui.setAuthor "" (Ui.setContent "" (Ui.cl_setErr "" st))) w1)
    as [st' [w' Hfetch]].
  unfold Ui.add.
  erewrite requests_of.
  2:{ eapply run_hbind; [ reflexivity | ]. cbv beta.
      eapply run_hbind; [ reflexivity | ]. cbv beta.
      eapply run_catch_ok.
      eapply run_hbind; [ eapply run_call; exact Hcall | ]. cbv beta.
      eapply run_hbind; [ reflexivity | ]. cbv beta.
      eapply run_hbind; [ reflexivity | ]. cbv beta.
      exact Hfetch. }
  simpl. now rewrite ?app_nil_r.
Qed.

Lemma save_requests taskId id body st w r1 w1 log1 :
  run network (updateComment taskId id body) w = (Ok r1, w1, log1) ->
  requests (run network (save taskId id body st) w)
  = log1 ++ [http_request REACT_APP_API_URL
               (Api.comments_path taskId) no_options].
Proof.
  intros Hcall.
  destruct (fetchComments_run taskId (Ui.cl_setErr "" st) w1)
    as [st' [w' Hfetch]].
  unfold Ui.save.
  erewrite requests_of.
  2:{ eapply run_hbind; [ reflexivity | ]. cbv beta.
      eapply run_catch_ok.
      eapply run_hbind; [ eapply run_call; exact Hcall | ]. cbv beta.
      exact Hfetch. }
  simpl. now rewrite ?app_nil_r.
Qed.

Lemma remove_requests taskId id st w r1 w1 log1 :
  run network (deleteComment taskId id) w = (Ok r1, w1, log1) ->
  requests (run network (remove taskId id st) w)
  = log1 ++ [http_request REACT_APP_API_URL
               (Api.comments_path taskId) no_options].
Proof.
  intros Hcall.
  destruct (fetchComments_run taskId (Ui.cl_setErr "" st) w1)
    as [st' [w' Hfetch]].
  unfold Ui.remove.
  erewrite requests_of.
  2:{ eapply run_hbind; [ reflexivity | ]. cbv beta.
      eapply run_catch_ok.
      eapply run_hbind; [ eapply run_call; exact Hcall | ]. cbv beta.
      exact Hfetch. }
  simpl. now rewrite ?app_nil_r.
Qed.

(** C6: after a successful [createComment], [updateComment] or
    [deleteComment] the handler goes on to request the comments of the task
    again (the [GET] of [listComments(taskId)]) and the local comment list
    becomes the list that request returned.  After a successful
    [createTask] or [updateTask] no further request is issued: the local
    task list is patched with the entity in the server's answer. *)
Theorem comment_mutations_refetch_task_mutations_patch :
  (forall taskId st w r1 w1 log1,
      run network (createComment taskId (Ui.new_comment st)) w
      = (Ok r1, w1, log1) ->
      requests (run network (add taskId st) w)
      = log1 ++ [http_request REACT_APP_API_URL
                   (Api.comments_path taskId) no_options]
      /\ (forall res w2 log2 data,
             run network (listComments taskId) w1 = (Ok res, w2, log2) ->
             getProp res "data" = Ok data ->
             Ui.comments (final_state (run network (add taskId st) w))
             = data))
  /\ (forall taskId id body st w r1 w1 log1,
         run network (updateComment taskId id body) w = (Ok r1, w1, log1) ->
         requests (run network (save taskId id body st) w)
         = log1 ++ [http_request REACT_APP_API_URL
                      (Api.comments_path taskId) no_options]
         /\ (forall res w2 log2 data,
                run network (listComments taskId) w1 = (Ok res, w2, log2) ->
                getProp res "data" = Ok data ->
                Ui.comments
                  (final_state (run network (save taskId id body st) w))
                = data))
  /\ (forall taskId id st w r1 w1 log1,
         run network (deleteComment taskId id) w = (Ok r1, w1, log1) ->
         requests (run network (remove taskId id st) w)
         = log1 ++ [http_request REACT_APP_API_URL
                      (Api.comments_path taskId) no_options]
         /\ (forall res w2 log2 data,
                run network (listComments taskId) w1 = (Ok res, w2, log2) ->
                getProp res "data" = Ok data ->
                Ui.comments
                  (final_state (run network (remove taskId id st) w))
                = data))
  /\ (forall body st w res w' log newTask items,
         run network (createTask body) w = (Ok res, w', log) ->
         getProp res "data" = Ok newTask ->
         is_nullish newTask = false ->
         Ui.tasks st = JArr items ->
         requests (run network (addTask body st) w)
         = requests (run network (createTask body) w)
         /\ Ui.tasks (final_state (run network (addTask body st) w))
            = JArr (items ++ [newTask]))
  /\ (forall id body st w res w' log updated items,
         run network (updateTask id body) w = (Ok res, w', log) ->
         getProp res "data" = Ok updated ->
         Ui.tasks st = JArr items ->
         Forall (fun t => is_nullish t = false) items ->
         requests (run network (saveTask id body st) w)
         = requests (run network (updateTask id body) w)
         /\ Ui.tasks (final_state (run network (saveTask id body st) w))
            = JArr (map (fun t => if strict_eq (field t "id") id
                                  then updated else t) items)).
Proof.
  split; [ | split; [ | split; [ | split ] ] ].
  - intros taskId st w r1 w1 log1 Hcall.
    split; [ exact (add_requests taskId st w r1 w1 log1 Hcall) | ].
    intros res w2 log2 data Hlist Hdata.
    now rewrite (run_add taskId st w r1 w1 log1 res w2 log2 data
                   Hcall Hlist Hdata).
  - intros taskId id body st w r1 w1 log1 Hcall.
    split; [ exact (save_requests taskId id body st w r1 w1 log1 Hcall) | ].
    intros res w2 log2 data Hlist Hdata.
    now rewrite (run_save taskId id body st w r1 w1 log1 res w2 log2 data
                   Hcall Hlist Hdata).
  - intros taskId id st w r1 w1 log1 Hcall.
    split; [ exact (remove_requests taskId id st w r1 w1 log1 Hcall) | ].
    intros res w2 log2 data Hlist Hdata.
    now rewrite (run_remove taskId id st w r1 w1 log1 res w2 log2 data
                   Hcall Hlist Hdata).
  - intros body st w res w' log newTask items Hcall Hdata Hnew Htasks.
    rewrite (run_addTask body st w res w' log newTask items
               Hcall Hdata Hnew Htasks), Hcall.
    split; reflexivity.
  - intros id body st w res w' log updated items Hcall Hdata Htasks Hitems.
    rewrite (run_saveTask id body st w res w' log updated items
               Hcall Hdata Htasks Hitems), Hcall.
    split; reflexivity.
Qed.

Lemma add_first_request taskId st w :
  exists rest,
    requests (run network (add taskId st) w)
    = http_request REACT_APP_API_URL (Api.comments_path taskId)
        (mkInit None (Some "POST") (JSON_stringify (Ui.new_comment st)))
      :: rest.
Proof.
  unfold Ui.add, hbind, read. simpl pbind.
  unfold catch, hbind, call, Api.createComment, Ui.new_comment.
  simpl getProp. unfold eval, await. simpl pbind. unfold Api.http.
  simpl pbind. simpl run.
  destruct (network w _) as [o w1].
  match goal with
  | |- context [run network ?p w1] =>
      destruct (run network p w1) as [[a w2] l]
  end.
  exists l. reflexivity.
Qed.

Lemma save_first_request taskId id body st w :
  exists rest,
    requests (run network (save taskId id body st) w)
    = http_request REACT_APP_API_URL (Api.comment_path taskId id)
        (mkInit None (Some "PUT") (JSON_stringify body))
      :: rest.
Proof.
  unfold Ui.save, hbind, set. simpl pbind.
  unfold catch, hbind, call, Api.updateComment, Api.http.
  simpl pbind. simpl run.
  destruct (network w _) as [o w1].
  match goal with
  | |- context [run network ?p w1] =>
      destruct (run network p w1) as [[a w2] l]
  end.
  exists l. reflexivity.
Qed.

Lemma EditableComment_save_first_request taskId c id st cl w :
  getProp c "id" = Ok id ->
  exists rest,
    requests (run network
                (Ui.EditableComment_save REACT_APP_API_URL JSON_parse
                   taskId c st cl) w)
    = http_request REACT_APP_API_URL (Api.comment_path taskId id)
        (mkInit None (Some "PUT") (JSON_stringify (Ui.edited_comment st)))
      :: rest.
Proof.
  intros Hid.
  destruct (save_first_request taskId id (Ui.edited_comment st) cl w)
    as [rest Hrest].
  unfold Ui.EditableComment_save, hbind at 1, expr. rewrite Hid. simpl pbind.
  simpl fst. cbv iota. simpl snd. unfold hbind.
  rewrite requests_pbind, Hrest. eexists. reflexivity.
Qed.

Lemma js_or_never_empty a b :
  b <> JStr "" -> js_or a b <> JStr "".
Proof.
  intros Hb. unfold js_or. destruct (truthy a) eqn:Ha; [ | exact Hb ].
  intros ->. discriminate.
Qed.

(** C2 (as the code has it): ['Anonymous'] is shown when the author is
    absent (null or undefined) and also when it is the empty string; a
    non-empty author is shown as it is.  The create form sends the text of
    its author field when that is non-empty and no [author] key at all when
    it is empty; the edit form starts from [c.author || ''] and sends the
    text of its field when non-empty and [author: null] when empty.  No
    form ever sends an empty author. *)
Theorem author_shown_and_sent :
  (forall c a,
      getProp c "author" = Ok a ->
      (forall s, a = JStr s -> s <> "" ->
                 Ui.displayed_author c = Ok (JStr s))
      /\ (absent a = true \/ a = JStr "" ->
          Ui.displayed_author c = Ok (JStr "Anonymous")))
  /\ (forall taskId st w,
         (exists rest,
             requests (run network (add taskId st) w)
             = http_request REACT_APP_API_URL (Api.comments_path taskId)
                 (mkInit None (Some "POST")
                    (JSON_stringify (Ui.new_comment st)))
               :: rest)
         /\ (Ui.author st = "" ->
             field (Ui.new_comment st) "author" = JUndefined
             /\ JSON_stringify (Ui.new_comment st)
                = JSON_stringify (JObj [("content", JStr (Ui.content st))]))
         /\ (Ui.author st <> "" ->
             field (Ui.new_comment st) "author" = JStr (Ui.author st)))
  /\ (forall c a st0,
         getProp c "author" = Ok a ->
         Ui.EditableComment_init c = Ok st0 ->
         Ui.ec_author st0 = js_or a (JStr ""))
  /\ (forall taskId c id st cl w,
         getProp c "id" = Ok id ->
         (exists rest,
             requests (run network
                         (Ui.EditableComment_save REACT_APP_API_URL
                            JSON_parse taskId c st cl) w)
             = http_request REACT_APP_API_URL (Api.comment_path taskId id)
                 (mkInit None (Some "PUT")
                    (JSON_stringify (Ui.edited_comment st)))
               :: rest)
         /\ (truthy (Ui.ec_author st) = true ->
             field (Ui.edited_comment st) "author" = Ui.ec_author st)
         /\ (truthy (Ui.ec_author st) = false ->
             field (Ui.edited_comment st) "author" = JNull)
         /\ field (Ui.edited_comment st) "author" <> JStr "").
Proof.
  split; [ | split; [ | split ] ].
  - intros c a Ha. unfold Ui.displayed_author. rewrite Ha. simpl. split.
    + intros s -> Hne. unfold js_or. simpl.
      destruct (String.eqb_spec s ""); [ contradiction | reflexivity ].
    + intros [Habs | ->]; [ | reflexivity ].
      destruct a; try discriminate; reflexivity.
  - intros taskId st w. split; [ apply add_first_request | ]. split.
    + intros Hempty. unfold Ui.new_comment, Ui.author_or_undefined, field.
      rewrite Hempty. split; reflexivity.
    + intros Hne. unfold Ui.new_comment, Ui.author_or_undefined, field, js_or.
      simpl. destruct (String.eqb_spec (Ui.author st) "");
        [ contradiction | reflexivity ].
  - intros c a st0 Ha. unfold Ui.EditableComment_init. rewrite Ha.
    destruct (getProp c "content"); simpl; [ | discriminate ].
    now intros [= <-].
  - intros taskId c id st cl w Hid.
    split; [ now apply EditableComment_save_first_request | ].
    unfold Ui.edited_comment, field, js_or. simpl.
    split; [ now intros -> | ]. split; [ now intros -> | ].
    apply (js_or_never_empty (Ui.ec_author st) JNull). discriminate.
Qed.

End UiFacts.

(** ** TaskDetail: the timestamps *)

Lemma substring_all s : substring 0 (String.length s) s = s.
Proof.
  induction s as [ | c s IH ]; simpl; [ reflexivity | now rewrite IH ].
Qed.

Lemma replace_eq pat rep s :
  Ui.replace pat rep s
  = if String.prefix pat s then
      String.append rep
        (substring (String.length pat) (String.length s - String.length pat) s)
    else match s with
         | EmptyString => EmptyString
         | String c rest => String c (Ui.replace pat rep rest)
         end.
Proof. destruct s; reflexivity. Qed.

Lemma prefix_T c s :
  String.prefix "T" (String c s) = if ascii_dec "T" c then true else false.
Proof.
  change (String.prefix "T" (String c s))
    with (if ascii_dec "T" c then String.prefix "" s else false).
  destruct (ascii_dec "T" c); [ now destruct s | reflexivity ].
Qed.

Lemma replace_hit s : Ui.replace "T" " " (String "T" s) = String " " s.
Proof.
  rewrite replace_eq, prefix_T.
  destruct (ascii_dec "T" "T") as [_ | Hne]; [ | now contradiction Hne ].
  change (String.length "T") with 1.
  change (String.length (String "T" s) - 1) with (String.length s - 0).
  rewrite Nat.sub_0_r.
  change (substring 1 (String.length s) (String "T" s))
    with (substring 0 (String.length s) s).
  now rewrite substring_all.
Qed.

Lemma replace_skip c s :
  c <> "T"%char ->
  Ui.replace "T" " " (String c s) = String c (Ui.replace "T" " " s).
Proof.
  intros Hc. rewrite replace_eq, prefix_T.
  destruct (ascii_dec "T" c) as [Heq | _]; [ now subst | reflexivity ].
Qed.

Lemma digit_not_T c : Ui.is_digit c = true -> c <> "T"%char.
Proof. intros H ->. discriminate. Qed.

Lemma dash_not_T c : Ascii.eqb c "-" = true -> c <> "T"%char.
Proof. intros H ->. discriminate. Qed.

(** C7: on a string that begins [YYYY-MM-DDTHH:MM:SS], whatever follows,
    replacing the first [T] by a space and keeping the first 19 characters
    gives exactly [YYYY-MM-DD HH:MM:SS]: the date, a space, the time. *)
Theorem display_timestamp_iso8601 :
  forall s,
    Ui.iso8601 s = true ->
    Ui.display_timestamp (JStr s)
    = Ok (JStr (String.append (substring 0 10 s)
                  (String.append " " (substring 11 8 s))))
    /\ Ui.display_format
         (String.append (substring 0 10 s)
            (String.append " " (substring 11 8 s))) = true.
Proof.
  intros s Hs. unfold Ui.iso8601 in Hs.
  do 19 (destruct s as [ | ? s ]; [ discriminate Hs | ]).
  simpl in Hs.
  repeat match type of Hs with
         | (_ && _)%bool = true =>
             let H := fresh "H" in
             apply andb_prop in Hs; destruct Hs as [Hs H]
         end.
  repeat match goal with
         | H : Ascii.eqb _ "T" = true |- _ => apply Ascii.eqb_eq in H; subst
         | H : Ascii.eqb _ ":" = true |- _ => apply Ascii.eqb_eq in H; subst
         end.
  split.
  - unfold Ui.display_timestamp.
    rewrite !replace_skip by (auto using digit_not_T, dash_not_T).
    rewrite replace_hit. reflexivity.
  - unfold Ui.display_format. simpl.
    repeat match goal with
           | H : _ = true |- _ => rewrite H; clear H
           end.
    now destruct s.
Qed.

(** ** The store: no orphaned comment *)

Section ServerFacts.
Import Server.

Lemma no_orphans_iff s :
  no_orphans s = true <->
  (forall c, In c (comments s) ->
             exists t, In t (tasks s) /\ task_id t = comment_task c).
Proof.
  unfold no_orphans, orphaned. rewrite forallb_forall. split.
  - intros H c Hc. specialize (H c Hc). rewrite negb_involutive in H.
    apply existsb_exists in H. destruct H as [t [Ht Heq]].
    exists t. split; [ exact Ht | now apply Z.eqb_eq ].
  - intros H c Hc. destruct (H c Hc) as [t [Ht Heq]].
    rewrite negb_involutive. apply existsb_exists.
    exists t. split; [ exact Ht | now apply Z.eqb_eq ].
Qed.

Lemma find_task_some id s t :
  find_task id s = Some t -> In t (tasks s) /\ task_id t = id.
Proof.
  unfold find_task. intros H. apply find_some in H.
  destruct H as [Hin Heq]. split; [ exact Hin | now apply Z.eqb_eq ].
Qed.

Lemma find_task_none id s :
  find_task id s = None -> forall t, In t (tasks s) -> task_id t <> id.
Proof.
  unfold find_task. intros H t Hin Heq.
  apply (find_none _ _ H) in Hin. apply Z.eqb_neq in Hin. contradiction.
Qed.

Lemma find_task_in s t : In t (tasks s) -> find_task (task_id t) s <> None.
Proof.
  intros Hin Hnone. now apply (find_task_none _ _ Hnone t Hin).
Qed.

Lemma owned_comment_some taskId commentId s c :
  owned_comment taskId commentId s = Some c ->
  comment_task c = taskId
  /\ exists t, In t (tasks s) /\ task_id t = taskId.
Proof.
  unfold owned_comment.
  destruct (find_task taskId s) as [t | ] eqn:Ht; [ | discriminate ].
  destruct (find_comment commentId s) as [c' | ]; [ | discriminate ].
  destruct (comment_task c' =? taskId)%Z eqn:Heq; [ | discriminate ].
  intros [= <-]. split; [ now apply Z.eqb_eq | ].
  exists t. now apply find_task_some.
Qed.

(** Every call keeps the store free of orphans. *)
Lemma step_no_orphans s call :
  no_orphans s = true -> no_orphans (step s call) = true.
Proof.
  rewrite !no_orphans_iff. intros Inv.
  destruct call as [ | ttl d | id | id ttl d | id | id | id text a
                   | id cid text a | id cid ]; simpl.
  - exact Inv.
  - unfold createTask. destruct ttl as [ttl | ]; [ | exact Inv ].
    destruct (ttl =? "")%string; [ exact Inv | ]. simpl.
    intros c Hc. destruct (Inv c Hc) as [t [Ht Heq]].
    exists t. split; [ apply in_or_app; now left | exact Heq ].
  - unfold getTask. now destruct (find_task id s).
  - unfold updateTask. destruct (find_task id s) as [t0 | ] eqn:Hfind;
      [ | exact Inv ].
    destruct (_ =? "")%string; [ exact Inv | ]. simpl.
    intros c Hc. destruct (Inv c Hc) as [t [Ht Heq]].
    destruct (find_task_some _ _ _ Hfind) as [_ Hid0].
    eexists. split; [ apply in_map; exact Ht | ]. simpl.
    destruct (task_id t =? id)%Z eqn:Hid; [ | exact Heq ].
    apply Z.eqb_eq in Hid. simpl. congruence.
  - unfold deleteTask. destruct (find_task id s) as [t0 | ]; [ | exact Inv ].
    simpl. intros c Hc. apply filter_In in Hc. destruct Hc as [Hc Hne].
    destruct (Inv c Hc) as [t [Ht Heq]].
    exists t. split; [ | exact Heq ].
    apply filter_In. split; [ exact Ht | now rewrite Heq ].
  - unfold listComments. now destruct (find_task id s).
  - unfold createComment. destruct (find_task id s) as [t0 | ] eqn:Hfind;
      [ | exact Inv ].
    destruct text as [text | ]; [ | exact Inv ].
    destruct (valid_content text); [ | exact Inv ]. simpl.
    intros c Hc. apply in_app_or in Hc. destruct Hc as [Hc | [<- | []]].
    + exact (Inv c Hc).
    + exists t0. now apply find_task_some.
  - unfold updateComment.
    destruct (owned_comment id cid s) as [c0 | ] eqn:Hown; [ | exact Inv ].
    destruct (valid_content _); [ | exact Inv ]. simpl.
    intros c Hc. apply in_map_iff in Hc. destruct Hc as [x [Hx Hin]].
    destruct (comment_id x =? cid)%Z.
    + subst c. simpl.
      destruct (owned_comment_some _ _ _ _ Hown) as [Htask [t [Ht Hid]]].
      exists t. split; [ exact Ht | congruence ].
    + subst c. exact (Inv x Hin).
  - unfold deleteComment.
    destruct (owned_comment id cid s) as [c0 | ]; [ | exact Inv ]. simpl.
    intros c Hc. apply filter_In in Hc. destruct Hc as [Hc _].
    exact (Inv c Hc).
Qed.

Lemma fold_step_no_orphans calls s :
  no_orphans s = true -> no_orphans (fold_left step calls s) = true.
Proof.
  revert s. induction calls as [ | call calls IH ]; intros s Inv;
    [ exact Inv | ].
  simpl. apply IH. now apply step_no_orphans.
Qed.

(** C1: in every reachable state of the store no comment is orphaned; and
    deleting a task [T] of such a state succeeds and, in that one step,
    removes [T] and every comment of [T], so that [listComments] of the
    former id fails with NotFoundError and still no comment is orphaned.
    The other tasks and their comments stay. *)
Theorem deleteTask_cascades :
  forall calls,
    no_orphans (after calls) = true
    /\ (forall T,
           In T (tasks (after calls)) ->
           fst (deleteTask (task_id T) (after calls)) = Done tt
           /\ (forall t,
                  In t (tasks (snd (deleteTask (task_id T) (after calls)))) ->
                  task_id t <> task_id T)
           /\ (forall c,
                  In c (comments (after calls)) ->
                  comment_task c = task_id T ->
                  ~ In c (comments
                            (snd (deleteTask (task_id T) (after calls)))))
           /\ fst (listComments (task_id T)
                     (snd (deleteTask (task_id T) (after calls))))
              = Failed NotFoundError
           /\ no_orphans (snd (deleteTask (task_id T) (after calls)))
              = true
           /\ (forall t,
                  In t (tasks (after calls)) -> task_id t <> task_id T ->
                  In t (tasks (snd (deleteTask (task_id T) (after calls)))))
           /\ (forall c,
                  In c (comments (after calls)) ->
                  comment_task c <> task_id T ->
                  In c (comments
                          (snd (deleteTask (task_id T) (after calls)))))).
Proof.
  intros calls.
  assert (Inv : no_orphans (after calls) = true).
  { unfold after. now apply fold_step_no_orphans. }
  split; [ exact Inv | ].
  intros T HT.
  pose proof (step_no_orphans (after calls) (DeleteTask (task_id T)) Inv)
    as Inv'.
  simpl in Inv'. revert Inv'.
  unfold deleteTask.
  destruct (find_task (task_id T) (after calls)) as [t0 | ] eqn:Hfind;
    [ | now apply find_task_in in HT ].
  simpl. intros Inv'.
  assert (Hgone : forall t,
             In t (filter (fun t => negb (task_id t =? task_id T)%Z)
                     (tasks (after calls))) ->
             task_id t <> task_id T).
  { intros t Ht. apply filter_In in Ht. destruct Ht as [_ Hne].
    apply Z.eqb_neq. now destruct (task_id t =? task_id T)%Z. }
  split; [ reflexivity | ]. split; [ exact Hgone | ].
  split; [ | split; [ | split; [ exact Inv' | split ] ] ].
  - intros c _ Hc Hin. apply filter_In in Hin. destruct Hin as [_ Hne].
    rewrite Hc, Z.eqb_refl in Hne. discriminate.
  - unfold listComments.
    match goal with
    | |- context [find_task (task_id T) ?s'] =>
        destruct (find_task (task_id T) s') as [t1 | ] eqn:Hfind'
    end; [ | reflexivity ].
    apply find_task_some in Hfind'. simpl in Hfind'.
    destruct Hfind' as [Hin Hid]. now apply Hgone in Hin.
  - intros t Ht Hne. apply filter_In. split; [ exact Ht | ].
    apply Z.eqb_neq in Hne. now rewrite Hne.
  - intros c Hc Hne. apply filter_In. split; [ exact Hc | ].
    apply Z.eqb_neq in Hne. now rewrite Hne.
Qed.

End ServerFacts.

(** ** The statements at concrete inputs *)

(** [http] on a 200 with a JSON body, and [deleteTask] on an empty 204. *)
Lemma http_resolves_to_body_witness :
  outcome (run scripted (Api.http None json_parse "/api/tasks" no_options)
             [ok_response (dq "{'data':[]}")])
  = Ok (JObj [("data", JArr [])])
  /\ outcome (run scripted (Api.deleteTask None json_parse (JNum 7))
                [no_content])
     = Ok JNull.
Proof.
  destruct (@http_resolves_to_body None json_parse (list FetchOutcome)
              scripted)
    as [Hhttp [Hdelete _]].
  split.
  - destruct (Hhttp "/api/tasks" no_options [ok_response (dq "{'data':[]}")]
                (mkResponse true 200 "OK" (dq "{'data':[]}")) [] eq_refl)
      as [Hok _].
    destruct (Hok eq_refl) as [_ [Hparsed _]].
    apply Hparsed; [ discriminate | reflexivity ].
  - apply (Hdelete (JNum 7) [no_content]
             (mkResponse true 204 "No Content" "") []); reflexivity.
Defined.

(** A 404 whose body is the error envelope: the server's message is the
    message of the error thrown. *)
Lemma http_error_message_witness :
  exists e,
    outcome (run scripted (Api.http None json_parse "/api/tasks/9" no_options)
               [error_response 404 "NOT FOUND"
                  (dq "{'error':{'message':'Task not found'}}")])
    = Throw e
    /\ err_message e = "Task not found".
Proof.
  destruct (@http_error_message None json_parse (list FetchOutcome) scripted
              "/api/tasks/9" no_options
              [error_response 404 "NOT FOUND"
                 (dq "{'error':{'message':'Task not found'}}")]
              (mkResponse false 404 "NOT FOUND"
                 (dq "{'error':{'message':'Task not found'}}"))
              [] eq_refl eq_refl)
    as [e [He [Hmessage _]]].
  exists e. split; [ exact He | ].
  apply Hmessage; [ reflexivity | discriminate ].
Defined.

(** A 400 whose body has the error shape with an empty message: the error
    thrown carries the status text, not the (empty) message of the body. *)
Lemma http_empty_message_replaced :
  error_shape (Api.parse_body json_parse (dq "{'error':{'message':''}}"))
  = Some ""
  /\ exists e,
       outcome (run scripted (Api.http None json_parse "/api/tasks" no_options)
                  [error_response 400 "BAD REQUEST"
                     (dq "{'error':{'message':''}}")])
       = Throw e
       /\ err_message e = "BAD REQUEST"
       /\ err_message e <> "".
Proof.
  split; [ reflexivity | ].
  eexists. split; [ reflexivity | ]. split; [ reflexivity | discriminate ].
Qed.

(** The eight requests for task 3 and comment 10. *)
Lemma api_methods_and_paths_witness :
  issues scripted (Api.listTasks None json_parse) [] "GET" "/api/tasks"
  /\ issues scripted
       (Api.createTask None json_parse (JObj [("title", JStr "Buy milk")]))
       [] "POST" "/api/tasks"
  /\ issues scripted
       (Api.updateTask None json_parse (JNum 3)
          (JObj [("title", JStr "Buy milk")]))
       [] "PUT" "/api/tasks/3"
  /\ issues scripted (Api.deleteTask None json_parse (JNum 3))
       [] "DELETE" "/api/tasks/3"
  /\ issues scripted (Api.listComments None json_parse (JNum 3))
       [] "GET" "/api/tasks/3/comments"
  /\ issues scripted
       (Api.createComment None json_parse (JNum 3)
          (JObj [("title", JStr "Buy milk")]))
       [] "POST" "/api/tasks/3/comments"
  /\ issues scripted
       (Api.updateComment None json_parse (JNum 3) (JNum 10)
          (JObj [("title", JStr "Buy milk")]))
       [] "PUT" "/api/tasks/3/comments/10"
  /\ issues scripted (Api.deleteComment None json_parse (JNum 3) (JNum 10))
       [] "DELETE" "/api/tasks/3/comments/10".
Proof.
  exact (@api_methods_and_paths None json_parse (list FetchOutcome) scripted
           [] (JNum 3) (JNum 3) (JNum 10)
           (JObj [("title", JStr "Buy milk")])
           (JObj [("title", JStr "Buy milk")]) eq_refl).
Defined.

(** A comment whose author is the empty string: the author is present, yet
    ['Anonymous'] is shown, and the edit form of that comment, saved as it
    opened, sends [author: null], as it does for a comment without author. *)
Lemma empty_author_shown_and_sent_as_absent :
  absent (JStr "") = false
  /\ Ui.displayed_author (comment_json 10 "urgent" (JStr ""))
     = Ok (JStr "Anonymous")
  /\ (exists st,
         Ui.EditableComment_init (comment_json 10 "urgent" (JStr "")) = Ok st
         /\ field (Ui.edited_comment st) "author" = JNull)
  /\ (exists st,
         Ui.EditableComment_init (comment_json 10 "urgent" JNull) = Ok st
         /\ field (Ui.edited_comment st) "author" = JNull).
Proof.
  split; [ reflexivity | ]. split; [ reflexivity | ].
  split; eexists; split; reflexivity.
Qed.

(** A comment by Ada is shown with her name; a comment without author is
    shown as Anonymous; the create form with an empty author field sends
    the content alone. *)
Lemma author_shown_and_sent_witness :
  Ui.displayed_author (comment_json 10 "urgent" (JStr "Ada"))
  = Ok (JStr "Ada")
  /\ Ui.displayed_author (comment_json 11 "later" JNull)
     = Ok (JStr "Anonymous")
  /\ JSON_stringify
       (Ui.new_comment (Ui.mkCommentList (JArr []) "urgent" "" false ""))
     = Some (dq "{'content':'urgent'}")
  /\ field (Ui.edited_comment (Ui.mkEditable true (JStr "urgent") (JStr "")))
       "author"
     = JNull.
Proof.
  destruct (author_shown_and_sent None json_parse (list FetchOutcome) scripted)
    as [Hshown [Hcreate [_ Hedit]]].
  split; [ | split; [ | split ] ].
  - destruct (Hshown (comment_json 10 "urgent" (JStr "Ada")) (JStr "Ada")
                eq_refl) as [Htext _].
    apply (Htext "Ada"); [ reflexivity | discriminate ].
  - destruct (Hshown (comment_json 11 "later" JNull) JNull eq_refl)
      as [_ Habsent].
    apply Habsent. left. reflexivity.
  - destruct (Hcreate (JNum 1)
                (Ui.mkCommentList (JArr []) "urgent" "" false "") [])
      as [_ [Hempty _]].
    destruct (Hempty eq_refl) as [_ Hsent]. rewrite Hsent. reflexivity.
  - destruct (Hedit (JNum 1) (comment_json 10 "urgent" (JStr "")) (JNum 10)
                (Ui.mkEditable true (JStr "urgent") (JStr ""))
                (Ui.CommentList_init) [] eq_refl)
      as [_ [_ [Hnull _]]].
    apply Hnull. reflexivity.
Defined.

(** Tasks 1 and 2 listed, task 1 selected: after [removeTask(1)] task 2
    alone is listed and nothing is selected. *)
Lemma removeTask_removes_and_clears_witness :
  Ui.tasks (final_state
              (run scripted
                 (Ui.removeTask None json_parse (JNum 1)
                    (Ui.mkApp (JArr [task_json 1 "a"; task_json 2 "b"])
                       (JNum 1) false ""))
                 [no_content]))
  = JArr [task_json 2 "b"]
  /\ Ui.selectedId (final_state
                      (run scripted
                         (Ui.removeTask None json_parse (JNum 1)
                            (Ui.mkApp
                               (JArr [task_json 1 "a"; task_json 2 "b"])
                               (JNum 1) false ""))
                         [no_content]))
     = JNull.
Proof.
  assert (Hitems : Forall (fun t => is_nullish t = false)
                     [task_json 1 "a"; task_json 2 "b"])
    by (repeat constructor).
  destruct (removeTask_removes_and_clears None json_parse
              (list FetchOutcome) scripted (JNum 1)
              (Ui.mkApp (JArr [task_json 1 "a"; task_json 2 "b"])
                 (JNum 1) false "")
              [no_content] JNull []
              [http_request None "/api/tasks/1"
                 (mkInit None (Some "DELETE") None)]
              [task_json 1 "a"; task_json 2 "b"]
              eq_refl eq_refl Hitems eq_refl)
    as [_ [Htasks [_ [Hselected _]]]].
  split; [ exact Htasks | ]. apply Hselected. reflexivity.
Defined.


(** A comment is added to task 3: the [POST] is followed by the [GET] of
    the comments of task 3, and the list shown is the one it returned. *)
Lemma comment_mutations_refetch_witness :
  map (fun rq => (req_method rq, req_url rq))
    (requests
       (run scripted
          (Ui.add None json_parse (JNum 3)
             (Ui.mkCommentList (JArr []) "urgent" "" false ""))
          [ok_response (dq "{'data':{'id':10,'content':'urgent'}}");
           ok_response (dq "{'data':[{'id':10,'content':'urgent'}]}")]))
  = [("POST", "/api/tasks/3/comments"); ("GET", "/api/tasks/3/comments")]
  /\ Ui.comments
       (final_state
          (run scripted
             (Ui.add None json_parse (JNum 3)
                (Ui.mkCommentList (JArr []) "urgent" "" false ""))
             [ok_response (dq "{'data':{'id':10,'content':'urgent'}}");
              ok_response (dq "{'data':[{'id':10,'content':'urgent'}]}")]))
     = JArr [JObj [("id", JNum 10); ("content", JStr "urgent")]].
Proof.
  destruct (comment_mutations_refetch_task_mutations_patch None json_parse
              (list FetchOutcome) scripted) as [Hadd _].
  destruct (Hadd (JNum 3) (Ui.mkCommentList (JArr []) "urgent" "" false "")
              [ok_response (dq "{'data':{'id':10,'content':'urgent'}}");
               ok_response (dq "{'data':[{'id':10,'content':'urgent'}]}")]
              (JObj [("data", JObj [("id", JNum 10);
                                    ("content", JStr "urgent")])])
              [ok_response (dq "{'data':[{'id':10,'content':'urgent'}]}")]
              [http_request None "/api/tasks/3/comments"
                 (mkInit None (Some "POST")
                    (Some (dq "{'content':'urgent'}")))]
              eq_refl)
    as [Hrequests Hreplaced].
  pose proof (Hreplaced
                (JObj [("data", JArr [JObj [("id", JNum 10);
                                            ("content", JStr "urgent")]])])
                []
                [http_request None "/api/tasks/3/comments" no_options]
                (JArr [JObj [("id", JNum 10); ("content", JStr "urgent")]])
                eq_refl eq_refl) as Hcomments.
  split; [ rewrite Hrequests; reflexivity | exact Hcomments ].
Defined.

(** A timestamp with microseconds and a zone. *)
Lemma display_timestamp_iso8601_witness :
  Ui.display_timestamp (JStr "2024-05-06T07:08:09.123456+00:00")
  = Ok (JStr "2024-05-06 07:08:09").
Proof.
  destruct (display_timestamp_iso8601 "2024-05-06T07:08:09.123456+00:00"
              eq_refl) as [Hshown _].
  exact Hshown.
Defined.

(** Task 1 listed and selected; task 2 is created: the list is tasks 1 and
    2, and task 2 is selected. *)
Lemma addTask_appends_and_selects_witness :
  Ui.tasks
    (final_state
       (run scripted
          (Ui.addTask None json_parse (JObj [("title", JStr "b")])
             (Ui.mkApp (JArr [task_json 1 "a"]) (JNum 1) false ""))
          [ok_response (dq "{'data':{'id':2,'title':'b'}}")]))
  = JArr [task_json 1 "a"; task_json 2 "b"]
  /\ Ui.selectedId
       (final_state
          (run scripted
             (Ui.addTask None json_parse (JObj [("title", JStr "b")])
                (Ui.mkApp (JArr [task_json 1 "a"]) (JNum 1) false ""))
             [ok_response (dq "{'data':{'id':2,'title':'b'}}")]))
     = JNum 2.
Proof.
  destruct (addTask_appends_and_selects None json_parse (list FetchOutcome)
              scripted (JObj [("title", JStr "b")])
              (Ui.mkApp (JArr [task_json 1 "a"]) (JNum 1) false "")
              [ok_response (dq "{'data':{'id':2,'title':'b'}}")]
              (JObj [("data", task_json 2 "b")])
              []
              [http_request None "/api/tasks"
                 (mkInit None (Some "POST") (Some (dq "{'title':'b'}")))]
              (task_json 2 "b") [task_json 1 "a"]
              eq_refl eq_refl eq_refl eq_refl)
    as [_ [Htasks Hselected]].
  split; [ exact Htasks | exact Hselected ].
Defined.

(** The scenario of the spec: task 1 with one comment is deleted; its
    comments can no longer be listed and no comment is left behind. *)
Lemma deleteTask_cascades_witness :
  fst (Server.listComments 1
         (snd (Server.deleteTask 1
                 (Server.after
                    [Server.CreateTask (Some "Buy milk") None;
                     Server.CreateComment 1 (Some "urgent") None]))))
  = Server.Failed Server.NotFoundError
  /\ Server.comments
       (snd (Server.deleteTask 1
               (Server.after
                  [Server.CreateTask (Some "Buy milk") None;
                   Server.CreateComment 1 (Some "urgent") None])))
     = [].
Proof.
  destruct (deleteTask_cascades
              [Server.CreateTask (Some "Buy milk") None;
               Server.CreateComment 1 (Some "urgent") None])
    as [_ Hdelete].
  destruct (Hdelete (Server.mkTask 1 "Buy milk" None 0 0)
              (or_introl eq_refl)) as [_ [_ [_ [Hlist _]]]].
  split; [ exact Hlist | reflexivity ].
Defined.

(** * Further properties of the client *)

(** ** Handlers across two components *)

Section PairFacts.
Variable World : Type.
Variable network : World -> Request -> FetchOutcome * World.

Lemma run_on_fst {S T A} (m : Handler S A) (st : S * T) w r s1 w1 l1 :
  run network (m (fst st)) w = ((r, s1), w1, l1) ->
  run network (on_fst m st) w = ((r, (s1, snd st)), w1, l1).
Proof.
  intros Hm. unfold on_fst.
  rewrite (run_pbind_eq _ network (m (fst st)) _ w _ w1 l1
             (r, (s1, snd st)) w1 [] Hm);
    [ now rewrite app_nil_r | reflexivity ].
Qed.

Lemma run_on_snd {S T A} (m : Handler T A) (st : S * T) w r s1 w1 l1 :
  run network (m (snd st)) w = ((r, s1), w1, l1) ->
  run network (on_snd m st) w = ((r, (fst st, s1)), w1, l1).
Proof.
  intros Hm. unfold on_snd.
  rewrite (run_pbind_eq _ network (m (snd st)) _ w _ w1 l1
             (r, (fst st, s1)) w1 [] Hm);
    [ now rewrite app_nil_r | reflexivity ].
Qed.

End PairFacts.

(** As [run_handler], with the callbacks of a parent component. *)
Ltac run_steps :=
  cbv beta;
  lazymatch goal with
  | |- run _ (hbind _ _ _) _ = _ =>
      first [ eapply run_hbind; [ run_steps | run_steps ]
            | eapply run_hbind_throw; run_steps ]
  | |- run _ (catch _ _ _) _ = _ =>
      first [ eapply run_catch_ok; run_steps
            | eapply run_catch_throw; [ run_steps | run_steps ] ]
  | |- run _ (finally _ _ _) _ = _ => eapply run_finally; run_steps
  | |- run _ (call _ _) _ = _ => eapply run_call; eassumption
  | |- run _ (on_fst _ _) _ = _ => eapply run_on_fst; run_steps
  | |- run _ (on_snd _ _) _ = _ =>
      eapply run_on_snd; first [ eassumption | run_steps ]
  | |- run _ ((if _ then _ else _) _) _ = _ =>
      rewrite_known;
      try lazymatch goal with
          | |- run _ ((if ?c then _ else _) _) _ = _ =>
              let c' := eval simpl in c in change c with c'; cbv iota
          end;
      lazymatch goal with
      | |- run _ ((if _ then _ else _) _) _ = _ => fail "undecided test"
      | |- _ => run_steps
      end
  | |- _ =>
      first [ eassumption
            | unfold expr, set, read, hret, hthrow, update, Ui.updateTasks;
              rewrite_known; simpl; rewrite_known; reflexivity ]
  end.

(** ** api.js: what is sent *)

Section MoreApiFacts.
Variable REACT_APP_API_URL : option string.
Variable JSON_parse : string -> option JsValue.
Variable World : Type.
Variable network : World -> Request -> FetchOutcome * World.

Local Abbreviation http := (Api.http REACT_APP_API_URL JSON_parse).

Lemma payloads_http path options w :
  payloads (run network (http path options) w)
  = [(init_headers (Api.http_init options), init_body options)].
Proof. unfold payloads. now rewrite run_http. Qed.

(** X1: every request of the eight API functions carries exactly the
    header [Content-Type: application/json]; the two lists and the two
    deletes send no body, the two updates send [JSON.stringify] of the body
    they are given, and the two creates send only the two properties they
    read off their argument. *)
Theorem api_requests_are_json :
  forall (w : World) (id taskId commentId body arg : JsValue),
    is_nullish arg = false ->
    payloads (run network (Api.listTasks REACT_APP_API_URL JSON_parse) w)
    = [(Some json_headers, None)]
    /\ payloads
         (run network (Api.createTask REACT_APP_API_URL JSON_parse arg) w)
       = [(Some json_headers,
           JSON_stringify (JObj [("title", field arg "title");
                                 ("description", field arg "description")]))]
    /\ payloads
         (run network (Api.updateTask REACT_APP_API_URL JSON_parse id body) w)
       = [(Some json_headers, JSON_stringify body)]
    /\ payloads
         (run network (Api.deleteTask REACT_APP_API_URL JSON_parse id) w)
       = [(Some json_headers, None)]
    /\ payloads
         (run network (Api.listComments REACT_APP_API_URL JSON_parse taskId)
            w)
       = [(Some json_headers, None)]
    /\ payloads
         (run network
            (Api.createComment REACT_APP_API_URL JSON_parse taskId arg) w)
       = [(Some json_headers,
           JSON_stringify (JObj [("content", field arg "content");
                                 ("author", field arg "author")]))]
    /\ payloads
         (run network
            (Api.updateComment REACT_APP_API_URL JSON_parse
               taskId commentId body) w)
       = [(Some json_headers, JSON_stringify body)]
    /\ payloads
         (run network
            (Api.deleteComment REACT_APP_API_URL JSON_parse taskId commentId)
            w)
       = [(Some json_headers, None)].
Proof.
  intros w id taskId commentId body arg Harg.
  repeat split; try apply payloads_http.
  - unfold Api.createTask.
    rewrite !(getProp_field _ _ Harg). apply payloads_http.
  - unfold Api.createComment.
    rewrite !(getProp_field _ _ Harg). apply payloads_http.
Qed.

(** X2: when the options of [http] name headers of their own, these are
    sent as they are: the spread of [options] comes after the merged
    headers and replaces them, so [Content-Type] is sent only if the
    caller's headers have it. *)
Theorem http_caller_headers_replace_default :
  forall path options h w,
    init_headers options = Some h ->
    payloads (run network (http path options) w) = [(Some h, init_body options)]
    /\ (existsb (fun kv => (fst kv =? "Content-Type")%string) h = false ->
        forall rq, In rq (requests (run network (http path options) w)) ->
                   forall hs, init_headers (req_init rq) = Some hs ->
                              ~ In ("Content-Type", "application/json") hs).
Proof.
  intros path options h w Hh. split.
  - rewrite payloads_http. unfold Api.http_init. now rewrite Hh.
  - intros Hnone rq Hin hs Hhs. rewrite run_http in Hin.
    destruct Hin as [<- | []]. simpl in Hhs. rewrite Hh in Hhs.
    injection Hhs as <-. intros Hct.
    assert (Hex : existsb (fun kv => (fst kv =? "Content-Type")%string) h
                  = true).
    { apply existsb_exists. eexists. split; [ exact Hct | reflexivity ]. }
    congruence.
Qed.

End MoreApiFacts.

(** ** App.js: failures and edge cases *)

Section MoreUiFacts.
Variable REACT_APP_API_URL : option string.
Variable JSON_parse : string -> option JsValue.
Variable World : Type.
Variable network : World -> Request -> FetchOutcome * World.

Local Abbreviation listTasks := (Api.listTasks REACT_APP_API_URL JSON_parse).
Local Abbreviation createTask :=
  (Api.createTask REACT_APP_API_URL JSON_parse).
Local Abbreviation updateTask :=
  (Api.updateTask REACT_APP_API_URL JSON_parse).
Local Abbreviation deleteTask :=
  (Api.deleteTask REACT_APP_API_URL JSON_parse).
Local Abbreviation listComments :=
  (Api.listComments REACT_APP_API_URL JSON_parse).
Local Abbreviation createComment :=
  (Api.createComment REACT_APP_API_URL JSON_parse).
Local Abbreviation updateComment :=
  (Api.updateComment REACT_APP_API_URL JSON_parse).
Local Abbreviation deleteComment :=
  (Api.deleteComment REACT_APP_API_URL JSON_parse).
Local Abbreviation addTask := (Ui.addTask REACT_APP_API_URL JSON_parse).
Local Abbreviation removeTask := (Ui.removeTask REACT_APP_API_URL JSON_parse).
Local Abbreviation saveTask := (Ui.saveTask REACT_APP_API_URL JSON_parse).
Local Abbreviation fetchTasks := (Ui.fetchTasks REACT_APP_API_URL JSON_parse).
Local Abbreviation fetchComments :=
  (Ui.fetchComments REACT_APP_API_URL JSON_parse).
Local Abbreviation add := (Ui.add REACT_APP_API_URL JSON_parse).
Local Abbreviation save := (Ui.save REACT_APP_API_URL JSON_parse).
Local Abbreviation remove := (Ui.remove REACT_APP_API_URL JSON_parse).

Lemma or_string_nonempty a b : b <> "" -> or_string a b <> "".
Proof.
  intros Hb. unfold or_string.
  destruct (String.eqb_spec a ""); [ exact Hb | assumption ].
Qed.

(** X3: [fetchTasks] never rejects: whatever the network answers and
    whatever the body holds, it issues its one [GET /api/tasks], resolves,
    and leaves [loading] false. *)
Theorem fetchTasks_never_rejects :
  forall st w,
    exists st' w',
      run network (fetchTasks st) w
      = ((Ok tt, st'), w',
         [http_request REACT_APP_API_URL "/api/tasks" no_options])
      /\ Ui.loading st' = false.
Proof.
  intros st w.
  unfold Ui.fetchTasks, hbind, read, set, finally, catch, call, expr,
    Api.listTasks, Api.http.
  simpl pbind. simpl run. unfold http_request.
  destruct (network w _) as [o w1].
  destruct o as [res | e]; simpl; [ | eauto ].
  destruct (res_ok res); simpl.
  - destruct (getProp _ "data") as [data | e]; simpl; [ | eauto ].
    destruct (getProp data "length") as [len | e]; simpl; [ | eauto ].
    destruct (truthy len && negb (truthy (Ui.selectedId st))); simpl;
      [ | eauto ].
    destruct (getFirst data) as [first | e]; simpl; [ | eauto ].
    destruct (getProp first "id") as [first_id | e]; simpl; eauto.
  - unfold eval, await. rewrite error_message_of_value. simpl. eauto.
Qed.

(** X4: when [listTasks] rejects (the network failed, or the response was
    not ok), [fetchTasks] keeps the task list and the selection, leaves
    [loading] false and shows the error's message, or ['Failed to load
    tasks'] when the message is empty: the text shown is never empty. *)
Theorem fetchTasks_failure_keeps_state :
  forall st w e w' log,
    run network listTasks w = (Throw e, w', log) ->
    run network (fetchTasks st) w
    = ((Ok tt,
        Ui.mkApp (Ui.tasks st) (Ui.selectedId st) false
          (or_string (err_message e) "Failed to load tasks")),
       w', log)
    /\ or_string (err_message e) "Failed to load tasks" <> "".
Proof.
  intros st w e w' log Hcall. split.
  - unfold Ui.fetchTasks.
    etransitivity; [ run_steps | ]. simpl. now rewrite ?app_nil_r.
  - apply or_string_nonempty. discriminate.
Qed.

(** X5: when the answer to [listTasks] is ok but its [data] is null or
    missing, [fetchTasks] has already stored that value as the task list
    when reading its [length] throws: the list is left null or undefined,
    the [TypeError] is shown, the selection is unchanged, and computing the
    selected task then throws. *)
Theorem fetchTasks_without_data_loses_list :
  forall st w res w' log data,
    run network listTasks w = (Ok res, w', log) ->
    getProp res "data" = Ok data ->
    is_nullish data = true ->
    Ui.tasks (final_state (run network (fetchTasks st) w)) = data
    /\ Ui.selectedId (final_state (run network (fetchTasks st) w))
       = Ui.selectedId st
    /\ Ui.err (final_state (run network (fetchTasks st) w)) <> ""
    /\ exists e,
         Ui.selectedTask (final_state (run network (fetchTasks st) w))
         = Throw e.
Proof.
  intros st w res w' log data Hcall Hdata Hnull.
  assert (Hrun : exists e,
             run network (fetchTasks st) w
             = ((Ok tt,
                 Ui.mkApp data (Ui.selectedId st) false
                   (or_string (err_message e) "Failed to load tasks")),
                w', log)).
  { assert (Hlen : exists e, getProp data "length" = Throw e)
      by (destruct data; try discriminate; eexists; reflexivity).
    destruct Hlen as [e Hlen]. exists e.
    unfold Ui.fetchTasks.
    etransitivity; [ run_steps | ]. simpl. now rewrite ?app_nil_r. }
  destruct Hrun as [e Hrun]. rewrite Hrun.
  unfold final_state, outcome. simpl.
  split; [ reflexivity | ]. split; [ reflexivity | ]. split.
  - apply or_string_nonempty. discriminate.
  - unfold Ui.selectedTask. simpl.
    destruct data; try discriminate; eexists; reflexivity.
Qed.

(** X6: [addTask], [removeTask] and [saveTask] do not catch: when the API
    call rejects they reject with the same error, issue no other request,
    and leave the task list, the selection and the rest of the state as
    they were. *)
Theorem task_mutations_rethrow :
  (forall body st w e w' log,
      run network (createTask body) w = (Throw e, w', log) ->
      run network (addTask body st) w = ((Throw e, st), w', log))
  /\ (forall id st w e w' log,
         run network (deleteTask id) w = (Throw e, w', log) ->
         run network (removeTask id st) w = ((Throw e, st), w', log))
  /\ (forall id body st w e w' log,
         run network (updateTask id body) w = (Throw e, w', log) ->
         run network (saveTask id body st) w = ((Throw e, st), w', log)).
Proof.
  split; [ | split ].
  - intros body st w e w' log Hcall. unfold Ui.addTask.
    etransitivity; [ run_steps | ]. simpl. now rewrite ?app_nil_r.
  - intros id st w e w' log Hcall. unfold Ui.removeTask.
    etransitivity; [ run_steps | ]. simpl. now rewrite ?app_nil_r.
  - intros id body st w e w' log Hcall. unfold Ui.saveTask.
    etransitivity; [ run_steps | ]. simpl. now rewrite ?app_nil_r.
Qed.

(** X7: when [createTask] resolves to a body whose [data] is null or
    missing, [addTask] has already appended that value to the task list
    when reading its [id] throws: the handler rejects, the selection is
    unchanged, and the list ends with a null or undefined entry. *)
Theorem addTask_without_data_appends_nothing_useful :
  forall body st w res w' log newTask items,
    run network (createTask body) w = (Ok res, w', log) ->
    getProp res "data" = Ok newTask ->
    is_nullish newTask = true ->
    Ui.tasks st = JArr items ->
    (exists e, completion (run network (addTask body st) w) = Throw e)
    /\ Ui.tasks (final_state (run network (addTask body st) w))
       = JArr (items ++ [newTask])
    /\ Ui.selectedId (final_state (run network (addTask body st) w))
       = Ui.selectedId st.
Proof.
  intros body st w res w' log newTask items Hcall Hdata Hnull Htasks.
  assert (Hid : exists e, getProp newTask "id" = Throw e)
    by (destruct newTask; try discriminate; eexists; reflexivity).
  destruct Hid as [e Hid].
  assert (Hrun : run network (addTask body st) w
                 = ((Throw e,
                     Ui.mkApp (JArr (items ++ [newTask])) (Ui.selectedId st)
                       (Ui.loading st) (Ui.err st)),
                    w', log)).
  { unfold Ui.addTask.
    etransitivity; [ run_steps | ]. simpl. now rewrite ?app_nil_r. }
  rewrite Hrun. unfold completion, final_state, outcome. simpl.
  split; [ eexists; reflexivity | ]. split; reflexivity.
Qed.

Lemma map_replace_length id updated (items : list JsValue) :
  List.length
    (map (fun t => if strict_eq (field t "id") id then updated else t) items)
  = List.length items.
Proof. apply length_map. Qed.

Lemma map_replace_absent id updated (items : list JsValue) :
  (forall t, In t items -> field t "id" <> id) ->
  map (fun t => if strict_eq (field t "id") id then updated else t) items
  = items.
Proof.
  induction items as [ | t rest IH ]; intros Hnone; [ reflexivity | ].
  simpl. rewrite IH by (intros x Hx; apply Hnone; now right).
  destruct (strict_eq (field t "id") id) eqn:Heq; [ | reflexivity ].
  apply strict_eq_true in Heq. exfalso.
  apply (Hnone t); [ now left | exact Heq ].
Qed.

(** X8: a successful [saveTask] keeps the number of listed tasks and the
    selection; and when no listed task has the id that was updated, the
    local list stays exactly as it was, although the server has changed the
    task. *)
Theorem saveTask_keeps_length_and_selection :
  forall id body st w res w' log updated items,
    run network (updateTask id body) w = (Ok res, w', log) ->
    getProp res "data" = Ok updated ->
    Ui.tasks st = JArr items ->
    Forall (fun t => is_nullish t = false) items ->
    (exists items',
        Ui.tasks (final_state (run network (saveTask id body st) w))
        = JArr items'
        /\ List.length items' = List.length items)
    /\ Ui.selectedId (final_state (run network (saveTask id body st) w))
       = Ui.selectedId st
    /\ ((forall t, In t items -> field t "id" <> id) ->
        Ui.tasks (final_state (run network (saveTask id body st) w))
        = JArr items).
Proof.
  intros id body st w res w' log updated items Hcall Hdata Htasks Hitems.
  rewrite (run_saveTask REACT_APP_API_URL JSON_parse World network
             id body st w res w' log updated items Hcall Hdata Htasks Hitems).
  unfold final_state, outcome. simpl.
  split; [ | split ].
  - eexists. split; [ reflexivity | apply map_replace_length ].
  - reflexivity.
  - intros Hnone. now rewrite map_replace_absent.
Qed.

Lemma findM_append_new sel newTask (items : list JsValue) :
  Forall (fun t => is_nullish t = false) items ->
  (forall t, In t items -> field t "id" <> sel) ->
  is_nullish newTask = false ->
  strict_eq (field newTask "id") sel = true ->
  Ui.findM (Ui.has_id sel) (items ++ [newTask]) = Ok newTask.
Proof.
  intros Hitems Hnone Hnew Hsel.
  induction Hitems as [ | t rest Ht _ IH ].
  - simpl. unfold Ui.has_id. rewrite (getProp_field newTask "id" Hnew).
    simpl. now rewrite Hsel.
  - simpl. unfold Ui.has_id at 1. rewrite (getProp_field t "id" Ht). simpl.
    destruct (strict_eq (field t "id") sel) eqn:Heq.
    + apply strict_eq_true in Heq. exfalso.
      apply (Hnone t); [ now left | exact Heq ].
    + apply IH. intros x Hx. apply Hnone. now right.
Qed.

(** X9: after a successful [addTask] the selected task, as [App] computes
    it with [tasks.find], is the task just created, provided no task
    already listed has the new task's id. *)
Theorem addTask_selected_task_is_new :
  forall body st w res w' log newTask items,
    run network (createTask body) w = (Ok res, w', log) ->
    getProp res "data" = Ok newTask ->
    truthy newTask = true ->
    Ui.tasks st = JArr items ->
    Forall (fun t => is_nullish t = false) items ->
    is_primitive (field newTask "id") = true ->
    (forall t, In t items -> field t "id" <> field newTask "id") ->
    Ui.selectedTask (final_state (run network (addTask body st) w))
    = Ok newTask.
Proof.
  intros body st w res w' log newTask items
    Hcall Hdata Htruthy Htasks Hitems Hprim Hfresh.
  pose proof (truthy_not_nullish newTask Htruthy) as Hnew.
  rewrite (run_addTask REACT_APP_API_URL JSON_parse World network
             body st w res w' log newTask items Hcall Hdata Hnew Htasks).
  unfold final_state, outcome, Ui.selectedTask. simpl.
  rewrite (findM_append_new (field newTask "id") newTask items
             Hitems Hfresh Hnew (strict_eq_refl _ Hprim)).
  simpl. unfold js_or. now rewrite Htruthy.
Qed.

Lemma findM_filter_other sel id (items : list JsValue) :
  Forall (fun t => is_nullish t = false) items ->
  sel <> id ->
  Ui.findM (Ui.has_id sel)
    (filter (fun t => negb (strict_eq (field t "id") id)) items)
  = Ui.findM (Ui.has_id sel) items.
Proof.
  intros Hitems Hne.
  induction Hitems as [ | t rest Ht _ IH ]; [ reflexivity | ].
  simpl. destruct (strict_eq (field t "id") id) eqn:Hid; simpl.
  - unfold Ui.has_id at 2. rewrite (getProp_field t "id" Ht). simpl.
    destruct (strict_eq (field t "id") sel) eqn:Hsel; [ | exact IH ].
    apply strict_eq_true in Hid. apply strict_eq_true in Hsel. congruence.
  - unfold Ui.has_id at 1 3. rewrite (getProp_field t "id" Ht). simpl.
    destruct (strict_eq (field t "id") sel); [ reflexivity | exact IH ].
Qed.

Lemma findM_absent sel (items : list JsValue) :
  Forall (fun t => is_nullish t = false) items ->
  (forall t, In t items -> field t "id" <> sel) ->
  Ui.findM (Ui.has_id sel) items = Ok JUndefined.
Proof.
  intros Hitems Hnone.
  induction Hitems as [ | t rest Ht _ IH ]; [ reflexivity | ].
  simpl. unfold Ui.has_id at 1. rewrite (getProp_field t "id" Ht). simpl.
  destruct (strict_eq (field t "id") sel) eqn:Heq.
  - apply strict_eq_true in Heq. exfalso.
    apply (Hnone t); [ now left | exact Heq ].
  - apply IH. intros x Hx. apply Hnone. now right.
Qed.

(** X10: after [removeTask(id)] has completed, if [id] was the selected id
    the selected task is [null] and no comment list is mounted; if another
    id was selected, the selected task is the one it was before. *)
Theorem removeTask_selected_task :
  forall id st w res w' log items,
    run network (deleteTask id) w = (Ok res, w', log) ->
    Ui.tasks st = JArr items ->
    Forall (fun t => is_nullish t = false) items ->
    is_primitive id = true ->
    (forall t, In t items -> field t "id" <> JNull) ->
    (Ui.selectedId st = id ->
     Ui.selectedTask (final_state (run network (removeTask id st) w))
     = Ok JNull
     /\ Ui.App_comments_taskId
          (final_state (run network (removeTask id st) w)) = None)
    /\ (Ui.selectedId st <> id ->
        Ui.selectedTask (final_state (run network (removeTask id st) w))
        = Ui.selectedTask st).
Proof.
  intros id st w res w' log items Hcall Htasks Hitems Hprim Hnonull.
  rewrite (run_removeTask REACT_APP_API_URL JSON_parse World network
             id st w res w' log items Hcall Htasks Hitems).
  unfold final_state, outcome. simpl. split.
  - intros Hsel. rewrite Hsel, (strict_eq_refl id Hprim).
    unfold Ui.selectedTask, Ui.App_comments_taskId. simpl.
    rewrite findM_absent.
    + split; reflexivity.
    + apply Forall_forall. intros t Ht. apply filter_In in Ht.
      rewrite Forall_forall in Hitems. now apply Hitems.
    + intros t Ht. apply filter_In in Ht. now apply Hnonull.
  - intros Hne.
    destruct (strict_eq (Ui.selectedId st) id) eqn:Heq;
      [ apply strict_eq_true in Heq; contradiction | ].
    unfold Ui.selectedTask. simpl. rewrite Htasks.
    now rewrite (findM_filter_other (Ui.selectedId st) id items Hitems Hne).
Qed.

Lemma run_TaskList_submit_ok {P : Type} (onCreate : JsValue -> Handler P unit)
    tl p w p' w' log :
  run network (onCreate (Ui.new_task tl) p) w = ((Ok tt, p'), w', log) ->
  run network (Ui.TaskList_submit onCreate (tl, p)) w
  = ((Ok tt, (Ui.mkTaskList "" "" "", p')), w', log).
Proof.
  intros Hcreate. unfold Ui.TaskList_submit.
  etransitivity; [ run_steps | ]. simpl. now rewrite ?app_nil_r.
Qed.

Lemma run_TaskList_submit_throw {P : Type}
    (onCreate : JsValue -> Handler P unit) tl p w e p' w' log :
  run network (onCreate (Ui.new_task tl) p) w = ((Throw e, p'), w', log) ->
  run network (Ui.TaskList_submit onCreate (tl, p)) w
  = ((Ok tt,
      (Ui.mkTaskList (Ui.tl_title tl) (Ui.tl_description tl)
         (or_string (err_message e) "Failed to create task"), p')),
     w', log).
Proof.
  intros Hcreate. unfold Ui.TaskList_submit.
  etransitivity; [ run_steps | ]. simpl. now rewrite ?app_nil_r.
Qed.

(** X11: [submit] of [TaskList] never rejects.  When [onCreate] resolves,
    the title and description fields are emptied and no error is shown;
    when it rejects, the two fields keep what was typed and the error's
    message is shown, or ['Failed to create task'] when it is empty. *)
Theorem TaskList_submit_outcomes :
  forall (P : Type) (onCreate : JsValue -> Handler P unit) tl p w,
    (forall p' w' log,
        run network (onCreate (Ui.new_task tl) p) w = ((Ok tt, p'), w', log) ->
        run network (Ui.TaskList_submit onCreate (tl, p)) w
        = ((Ok tt, (Ui.TaskList_init, p')), w', log))
    /\ (forall e p' w' log,
           run network (onCreate (Ui.new_task tl) p) w
           = ((Throw e, p'), w', log) ->
           run network (Ui.TaskList_submit onCreate (tl, p)) w
           = ((Ok tt,
               (Ui.tl_setErr
                  (or_string (err_message e) "Failed to create task") tl,
                p')),
              w', log)
           /\ or_string (err_message e) "Failed to create task" <> "").
Proof.
  intros P onCreate tl p w. split.
  - intros p' w' log Hcreate. now apply run_TaskList_submit_ok.
  - intros e p' w' log Hcreate. split.
    + now apply run_TaskList_submit_throw.
    + apply or_string_nonempty. discriminate.
Qed.

Lemma run_addTask_throw body st w e w' log :
  run network (createTask body) w = (Throw e, w', log) ->
  run network (addTask body st) w = ((Throw e, st), w', log).
Proof.
  intros Hcall. unfold Ui.addTask.
  etransitivity; [ run_steps | ]. simpl. now rewrite ?app_nil_r.
Qed.

(** The request of the create form. *)
Lemma createTask_new_task tl :
  createTask (Ui.new_task tl)
  = Api.http REACT_APP_API_URL JSON_parse "/api/tasks"
      (mkInit None (Some "POST") (JSON_stringify (Ui.new_task tl))).
Proof. reflexivity. Qed.

(** X12: when the server answers the create form's [POST /api/tasks] with
    a response that is not ok and whose body is the error envelope with a
    non-empty message (a validation error), that message is what
    [TaskList] shows, word for word; the typed title and description stay
    in the form and the task list and selection are untouched. *)
Theorem TaskList_shows_server_message :
  forall tl app w res w' m,
    network w
      (http_request REACT_APP_API_URL "/api/tasks"
         (mkInit None (Some "POST") (JSON_stringify (Ui.new_task tl))))
    = (Responded res, w') ->
    res_ok res = false ->
    error_shape (Api.parse_body JSON_parse (res_text res)) = Some m ->
    m <> "" ->
    final_state (run network (Ui.TaskList_submit addTask (tl, app)) w)
    = (Ui.mkTaskList (Ui.tl_title tl) (Ui.tl_description tl) m, app).
Proof.
  intros tl app w res w' m Hnet Hok Hshape Hne.
  destruct (message_value_shape _ Hshape Hne) as [Hvalue Htruthy].
  pose proof (@run_http_answered REACT_APP_API_URL JSON_parse World network
                _ _ _ _ _ Hnet) as Hhttp.
  rewrite <- createTask_new_task in Hhttp.
  simpl http_result in Hhttp. rewrite Hok, Htruthy, Hvalue in Hhttp.
  rewrite (run_TaskList_submit_throw addTask tl app w _ app w' _
             (run_addTask_throw (Ui.new_task tl) app w _ w' _ Hhttp)).
  unfold final_state, outcome. simpl. unfold or_string.
  destruct (String.eqb_spec m ""); [ contradiction | reflexivity ].
Qed.

Lemma addTask_payloads body st w :
  is_nullish body = false ->
  payloads (run network (addTask body st) w)
  = [(Some json_headers,
      JSON_stringify (JObj [("title", field body "title");
                            ("description", field body "description")]))].
Proof.
  intros Hbody.
  unfold Ui.addTask, hbind, call, expr, update, set, Api.createTask.
  rewrite !(getProp_field _ _ Hbody). unfold eval, await. simpl pbind.
  unfold Api.http. simpl pbind. simpl run.
  destruct (network w _) as [o w1].
  destruct o as [res | e]; simpl; [ | reflexivity ].
  destruct (res_ok res); simpl.
  - destruct (getProp _ "data") as [newTask | e]; simpl; [ | reflexivity ].
    destruct (Ui.updateTasks _ st) as [st' | e]; simpl; [ | reflexivity ].
    destruct (getProp newTask "id"); reflexivity.
  - unfold eval, await. rewrite error_message_of_value. reflexivity.
Qed.

(** X13: the create form issues exactly one request, whatever its outcome,
    and its body is [JSON.stringify] of the title and of the description as
    typed; a description left empty is not sent at all (the key is absent
    from the body), so the server sees no description rather than an empty
    one. *)
Theorem TaskList_submit_payload :
  forall tl app w,
    payloads (run network (Ui.TaskList_submit addTask (tl, app)) w)
    = [(Some json_headers, JSON_stringify (Ui.new_task tl))]
    /\ (Ui.tl_description tl = "" ->
        JSON_stringify (Ui.new_task tl)
        = JSON_stringify (JObj [("title", JStr (Ui.tl_title tl))]))
    /\ (Ui.tl_description tl <> "" ->
        field (Ui.new_task tl) "description" = JStr (Ui.tl_description tl)).
Proof.
  intros tl app w. split; [ | split ].
  - pose proof (addTask_payloads (Ui.new_task tl) app w eq_refl) as Hadd.
    destruct (run network (addTask (Ui.new_task tl) app) w)
      as [[[r app'] w1] l1] eqn:Hrun.
    destruct r as [[] | e].
    + rewrite (run_TaskList_submit_ok addTask tl app w app' w1 l1 Hrun).
      exact Hadd.
    + rewrite (run_TaskList_submit_throw addTask tl app w e app' w1 l1 Hrun).
      exact Hadd.
  - intros Hempty. unfold Ui.new_task. now rewrite Hempty.
  - intros Hne. unfold Ui.new_task, field, js_or. simpl.
    destruct (String.eqb_spec (Ui.tl_description tl) "");
      [ contradiction | reflexivity ].
Qed.

Lemma run_TaskDetail_submit_ok {P : Type}
    (onUpdate : JsValue -> JsValue -> Handler P unit)
    task id td p w p' w' log :
  getProp task "id" = Ok id ->
  run network (onUpdate id (Ui.edited_task td) p) w
  = ((Ok tt, p'), w', log) ->
  run network (Ui.TaskDetail_submit onUpdate task (td, p)) w
  = ((Ok tt,
      (Ui.mkTaskDetail (Ui.td_title td) (Ui.td_description td) "Saved" ""
         (Ui.td_timeouts td ++ [(1500%Z, Ui.ClearMessage)]), p')),
     w', log).
Proof.
  intros Hid Hupdate. unfold Ui.TaskDetail_submit.
  etransitivity; [ run_steps | ]. simpl. now rewrite ?app_nil_r.
Qed.

Lemma run_TaskDetail_submit_throw {P : Type}
    (onUpdate : JsValue -> JsValue -> Handler P unit)
    task id td p w e p' w' log :
  getProp task "id" = Ok id ->
  run network (onUpdate id (Ui.edited_task td) p) w
  = ((Throw e, p'), w', log) ->
  run network (Ui.TaskDetail_submit onUpdate task (td, p)) w
  = ((Ok tt,
      (Ui.mkTaskDetail (Ui.td_title td) (Ui.td_description td)
         (Ui.td_message td) (or_string (err_message e) "Failed to save")
         (Ui.td_timeouts td), p')),
     w', log).
Proof.
  intros Hid Hupdate. unfold Ui.TaskDetail_submit.
  etransitivity; [ run_steps | ]. simpl. now rewrite ?app_nil_r.
Qed.

(** X14: [submit] of [TaskDetail] never rejects.  When [onUpdate]
    resolves, ['Saved'] is shown, no error is shown, and one timeout of
    1500 ms is scheduled whose callback empties the message again; when it
    rejects, the error's message (or ['Failed to save']) is shown, no
    timeout is scheduled and the message is left as it was.  The typed
    title and description stay in both cases. *)
Theorem TaskDetail_submit_outcomes :
  forall (P : Type) (onUpdate : JsValue -> JsValue -> Handler P unit)
         task id td p w,
    getProp task "id" = Ok id ->
    (forall p' w' log,
        run network (onUpdate id (Ui.edited_task td) p) w
        = ((Ok tt, p'), w', log) ->
        exists td',
          run network (Ui.TaskDetail_submit onUpdate task (td, p)) w
          = ((Ok tt, (td', p')), w', log)
          /\ Ui.td_message td' = "Saved"
          /\ Ui.td_err td' = ""
          /\ Ui.td_timeouts td'
             = Ui.td_timeouts td ++ [(1500%Z, Ui.ClearMessage)]
          /\ Ui.td_message (Ui.fire Ui.ClearMessage td') = ""
          /\ Ui.edited_task td' = Ui.edited_task td)
    /\ (forall e p' w' log,
           run network (onUpdate id (Ui.edited_task td) p) w
           = ((Throw e, p'), w', log) ->
           exists td',
             run network (Ui.TaskDetail_submit onUpdate task (td, p)) w
             = ((Ok tt, (td', p')), w', log)
             /\ Ui.td_err td' = or_string (err_message e) "Failed to save"
             /\ Ui.td_err td' <> ""
             /\ Ui.td_message td' = Ui.td_message td
             /\ Ui.td_timeouts td' = Ui.td_timeouts td
             /\ Ui.edited_task td' = Ui.edited_task td).
Proof.
  intros P onUpdate task id td p w Hid. split.
  - intros p' w' log Hupdate. eexists. split.
    + exact (run_TaskDetail_submit_ok onUpdate task id td p w p' w' log
               Hid Hupdate).
    + repeat split.
  - intros e p' w' log Hupdate. eexists. split.
    + exact (run_TaskDetail_submit_throw onUpdate task id td p w e p' w' log
               Hid Hupdate).
    + repeat split. simpl. apply or_string_nonempty. discriminate.
Qed.

Lemma saveTask_requests id body st w :
  requests (run network (saveTask id body st) w)
  = [http_request REACT_APP_API_URL
       (String.append "/api/tasks/" (toString id))
       (mkInit None (Some "PUT") (JSON_stringify body))].
Proof.
  unfold Ui.saveTask, hbind, call, expr, update, Api.updateTask, Api.http.
  simpl pbind. simpl run. unfold http_request.
  destruct (network w _) as [o w1].
  destruct o as [res | e]; simpl; [ | reflexivity ].
  destruct (res_ok res); simpl.
  - destruct (getProp _ "data") as [updated | e]; simpl; [ | reflexivity ].
    destruct (Ui.updateTasks _ st); reflexivity.
  - unfold eval, await. rewrite error_message_of_value. reflexivity.
Qed.

(** X15: the edit form of a task, as it is when first rendered for [task]
    or after the effect has reset it for [task], and submitted, issues
    exactly one request, [PUT /api/tasks/<task.id>], whatever its outcome;
    the body always has both keys, taken from [task.title || ''] and
    [task.description || '']: a task whose description is null is saved
    with the empty string as its description. *)
Theorem TaskDetail_submit_request :
  forall task id td app w,
    getProp task "id" = Ok id ->
    (Ui.TaskDetail_init task = Ok td
     \/ exists td0, Ui.TaskDetail_effect task td0 = Ok td) ->
    requests (run network (Ui.TaskDetail_submit saveTask task (td, app)) w)
    = [http_request REACT_APP_API_URL
         (String.append "/api/tasks/" (toString id))
         (mkInit None (Some "PUT") (JSON_stringify (Ui.edited_task td)))]
    /\ Ui.edited_task td
       = JObj [("title", js_or (field task "title") (JStr ""));
               ("description", js_or (field task "description") (JStr ""))]
    /\ (is_nullish (field task "description") = true ->
        field (Ui.edited_task td) "description" = JStr "").
Proof.
  intros task id td app w Hid Hinit.
  assert (Htask : is_nullish task = false)
    by (destruct task; try reflexivity; discriminate).
  assert (Htd : Ui.edited_task td
                = JObj [("title", js_or (field task "title") (JStr ""));
                        ("description",
                         js_or (field task "description") (JStr ""))]).
  { destruct Hinit as [Hinit | [td0 Hinit]];
      unfold Ui.TaskDetail_init, Ui.TaskDetail_effect, Ui.optional in Hinit;
      rewrite Htask in Hinit;
      rewrite !(getProp_field _ _ Htask) in Hinit; simpl in Hinit;
      injection Hinit as <-; reflexivity. }
  split; [ | split ].
  - pose proof (saveTask_requests id (Ui.edited_task td) app w) as Hsave.
    destruct (run network (saveTask id (Ui.edited_task td) app) w)
      as [[[r app'] w1] l1] eqn:Hrun.
    destruct r as [[] | e].
    + rewrite (run_TaskDetail_submit_ok saveTask task id td app w app' w1 l1
                 Hid Hrun).
      exact Hsave.
    + rewrite (run_TaskDetail_submit_throw saveTask task id td app w e app'
                 w1 l1 Hid Hrun).
      exact Hsave.
  - exact Htd.
  - intros Hnull. rewrite Htd. unfold field at 1. simpl.
    destruct (field task "description"); try discriminate; reflexivity.
Qed.

Lemma run_http_one path options w :
  exists r w1,
    run network (Api.http REACT_APP_API_URL JSON_parse path options) w
    = (r, w1, [http_request REACT_APP_API_URL path options]).
Proof. rewrite run_http. eexists. eexists. reflexivity. Qed.

Lemma run_add_throw taskId st w e w1 log1 :
  run network (createComment taskId (Ui.new_comment st)) w
  = (Throw e, w1, log1) ->
  run network (add taskId st) w
  = ((Ok tt,
      Ui.cl_setErr (or_string (err_message e) "Failed to add comment") st),
     w1, log1).
Proof.
  intros Hcall. unfold Ui.add.
  etransitivity; [ run_steps | ]. simpl. rewrite ?app_nil_r.
  now destruct st.
Qed.

Lemma run_save_throw taskId id body st w e w1 log1 :
  run network (updateComment taskId id body) w = (Throw e, w1, log1) ->
  run network (save taskId id body st) w
  = ((Ok tt,
      Ui.cl_setErr (or_string (err_message e) "Failed to update comment") st),
     w1, log1).
Proof.
  intros Hcall. unfold Ui.save.
  etransitivity; [ run_steps | ]. simpl. rewrite ?app_nil_r.
  now destruct st.
Qed.

Lemma run_remove_throw taskId id st w e w1 log1 :
  run network (deleteComment taskId id) w = (Throw e, w1, log1) ->
  run network (remove taskId id st) w
  = ((Ok tt,
      Ui.cl_setErr (or_string (err_message e) "Failed to delete comment") st),
     w1, log1).
Proof.
  intros Hcall. unfold Ui.remove.
  etransitivity; [ run_steps | ]. simpl. rewrite ?app_nil_r.
  now destruct st.
Qed.

Lemma run_add_any taskId st w r1 w1 log1 st2 w2 log2 :
  run network (createComment taskId (Ui.new_comment st)) w
  = (Ok r1, w1, log1) ->
  run network
    (fetchComments taskId
       (Ui.setAuthor "" (Ui.setContent "" (Ui.cl_setErr "" st)))) w1
  = ((Ok tt, st2), w2, log2) ->
  run network (add taskId st) w = ((Ok tt, st2), w2, log1 ++ log2).
Proof.
  intros Hcall Hfetch. unfold Ui.add.
  etransitivity; [ run_steps | ]. simpl. now rewrite ?app_nil_r.
Qed.

Lemma run_save_any taskId id body st w r1 w1 log1 st2 w2 log2 :
  run network (updateComment taskId id body) w = (Ok r1, w1, log1) ->
  run network (fetchComments taskId (Ui.cl_setErr "" st)) w1
  = ((Ok tt, st2), w2, log2) ->
  run network (save taskId id body st) w = ((Ok tt, st2), w2, log1 ++ log2).
Proof.
  intros Hcall Hfetch. unfold Ui.save.
  etransitivity; [ run_steps | ]. simpl. now rewrite ?app_nil_r.
Qed.

Lemma run_remove_any taskId id st w r1 w1 log1 st2 w2 log2 :
  run network (deleteComment taskId id) w = (Ok r1, w1, log1) ->
  run network (fetchComments taskId (Ui.cl_setErr "" st)) w1
  = ((Ok tt, st2), w2, log2) ->
  run network (remove taskId id st) w = ((Ok tt, st2), w2, log1 ++ log2).
Proof.
  intros Hcall Hfetch. unfold Ui.remove.
  etransitivity; [ run_steps | ]. simpl. now rewrite ?app_nil_r.
Qed.

Lemma save_never_rejects taskId id body st w :
  exists st' w' log,
    run network (save taskId id body st) w = ((Ok tt, st'), w', log)
    /\ (List.length log <= 2)%nat.
Proof.
  destruct (run_http_one (Api.comment_path taskId id)
              (mkInit None (Some "PUT") (JSON_stringify body)) w)
    as [r [w1 Hcall]].
  change (Api.http REACT_APP_API_URL JSON_parse
            (Api.comment_path taskId id)
            (mkInit None (Some "PUT") (JSON_stringify body)))
    with (updateComment taskId id body) in Hcall.
  destruct r as [r1 | e].
  - destruct (fetchComments_run REACT_APP_API_URL JSON_parse World network
                taskId (Ui.cl_setErr "" st) w1) as [st2 [w2 Hfetch]].
    eexists. eexists. eexists. split.
    + exact (run_save_any taskId id body st w r1 w1 _ st2 w2 _ Hcall Hfetch).
    + simpl. lia.
  - eexists. eexists. eexists. split.
    + exact (run_save_throw taskId id body st w e w1 _ Hcall).
    + simpl. lia.
Qed.

(** X16: the handlers of [CommentList] never reject: [add], [save] and
    [remove] resolve whatever the network answers, after at most two
    requests (the mutation, and the list if the mutation succeeded). *)
Theorem comment_handlers_never_reject :
  (forall taskId st w,
      exists st' w' log,
        run network (add taskId st) w = ((Ok tt, st'), w', log)
        /\ (List.length log <= 2)%nat)
  /\ (forall taskId id body st w,
         exists st' w' log,
           run network (save taskId id body st) w = ((Ok tt, st'), w', log)
           /\ (List.length log <= 2)%nat)
  /\ (forall taskId id st w,
         exists st' w' log,
           run network (remove taskId id st) w = ((Ok tt, st'), w', log)
           /\ (List.length log <= 2)%nat).
Proof.
  split; [ | split ].
  - intros taskId st w.
    destruct (run_http_one (Api.comments_path taskId)
                (mkInit None (Some "POST")
                   (JSON_stringify (Ui.new_comment st))) w)
      as [r [w1 Hcall]].
    change (Api.http REACT_APP_API_URL JSON_parse
              (Api.comments_path taskId)
              (mkInit None (Some "POST")
                 (JSON_stringify (Ui.new_comment st))))
      with (createComment taskId (Ui.new_comment st)) in Hcall.
    destruct r as [r1 | e].
    + destruct (fetchComments_run REACT_APP_API_URL JSON_parse World network
                  taskId
                  (Ui.setAuthor "" (Ui.setContent "" (Ui.cl_setErr "" st)))
                  w1) as [st2 [w2 Hfetch]].
      eexists. eexists. eexists. split.
      * exact (run_add_any taskId st w r1 w1 _ st2 w2 _ Hcall Hfetch).
      * simpl. lia.
    + eexists. eexists. eexists. split.
      * exact (run_add_throw taskId st w e w1 _ Hcall).
      * simpl. lia.
  - intros taskId id body st w. apply save_never_rejects.
  - intros taskId id st w.
    destruct (run_http_one (Api.comment_path taskId id)
                (mkInit None (Some "DELETE") None) w)
      as [r [w1 Hcall]].
    change (Api.http REACT_APP_API_URL JSON_parse
              (Api.comment_path taskId id)
              (mkInit None (Some "DELETE") None))
      with (deleteComment taskId id) in Hcall.
    destruct r as [r1 | e].
    + destruct (fetchComments_run REACT_APP_API_URL JSON_parse World network
                  taskId (Ui.cl_setErr "" st) w1) as [st2 [w2 Hfetch]].
      eexists. eexists. eexists. split.
      * exact (run_remove_any taskId id st w r1 w1 _ st2 w2 _ Hcall Hfetch).
      * simpl. lia.
    + eexists. eexists. eexists. split.
      * exact (run_remove_throw taskId id st w e w1 _ Hcall).
      * simpl. lia.
Qed.

(** X17: when [updateComment] rejects, [save] of [EditableComment] still
    resolves: the list issues no further request, shows the error (its
    message, or ['Failed to update comment']) and does not touch
    [loading], so it goes on rendering its items; and the
    [setEditing(false)] that follows closes the editor, the typed content
    and author being kept.  A save that failed ends the editing all the
    same. *)
Theorem EditableComment_save_failure_closes :
  forall taskId c id ec st w e w1 log1,
    getProp c "id" = Ok id ->
    Ui.CommentList_shows_items st = true ->
    run network (updateComment taskId id (Ui.edited_comment ec)) w
    = (Throw e, w1, log1) ->
    exists update,
      run network
        (Ui.EditableComment_save REACT_APP_API_URL JSON_parse taskId c ec st)
        w
      = ((Ok update,
          Ui.cl_setErr (or_string (err_message e) "Failed to update comment")
            st),
         w1, log1)
      /\ Ui.CommentList_shows_items
           (Ui.cl_setErr
              (or_string (err_message e) "Failed to update comment") st)
         = true
      /\ update ec
         = Ui.mkEditable false (Ui.ec_content ec) (Ui.ec_author ec).
Proof.
  intros taskId c id ec st w e w1 log1 Hid Hshown Hcall.
  pose proof (run_save_throw taskId id (Ui.edited_comment ec) st w e w1 log1
                Hcall) as Hsave.
  exists (Ui.setEditing false). split; [ | split ].
  - unfold Ui.EditableComment_save.
    etransitivity; [ run_steps | ]. simpl. now rewrite ?app_nil_r.
  - exact Hshown.
  - reflexivity.
Qed.

(** X18: when the mutation of a comment rejects, [add], [save] and
    [remove] issue no further request (the comments are not fetched
    again) and change nothing but the error shown: the comment list, the
    [loading] flag and, for [add], the typed content and author stay. *)
Theorem comment_mutation_failure_keeps_state :
  (forall taskId st w e w1 log1,
      run network (createComment taskId (Ui.new_comment st)) w
      = (Throw e, w1, log1) ->
      run network (add taskId st) w
      = ((Ok tt,
          Ui.cl_setErr (or_string (err_message e) "Failed to add comment")
            st),
         w1, log1))
  /\ (forall taskId id body st w e w1 log1,
         run network (updateComment taskId id body) w
         = (Throw e, w1, log1) ->
         run network (save taskId id body st) w
         = ((Ok tt,
             Ui.cl_setErr
               (or_string (err_message e) "Failed to update comment") st),
            w1, log1))
  /\ (forall taskId id st w e w1 log1,
         run network (deleteComment taskId id) w = (Throw e, w1, log1) ->
         run network (remove taskId id st) w
         = ((Ok tt,
             Ui.cl_setErr
               (or_string (err_message e) "Failed to delete comment") st),
            w1, log1)).
Proof.
  split; [ | split ].
  - exact run_add_throw.
  - exact run_save_throw.
  - exact run_remove_throw.
Qed.

Lemma run_fetchComments_throw taskId st w e w' log :
  run network (listComments taskId) w = (Throw e, w', log) ->
  run network (fetchComments taskId st) w
  = ((Ok tt,
      Ui.mkCommentList (Ui.comments st) (Ui.content st) (Ui.author st) false
        (or_string (err_message e) "Failed to load comments")),
     w', log).
Proof.
  intros Hcall. unfold Ui.fetchComments.
  etransitivity; [ run_steps | ]. simpl. now rewrite ?app_nil_r.
Qed.

(** X19: when [listComments] rejects, [fetchComments] keeps the comments
    it had (after a change of task these are still the comments of the
    task shown before), leaves [loading] false and shows the error's
    message, or ['Failed to load comments'] when it is empty. *)
Theorem fetchComments_failure_keeps_comments :
  forall taskId st w e w' log,
    run network (listComments taskId) w = (Throw e, w', log) ->
    run network (fetchComments taskId st) w
    = ((Ok tt,
        Ui.mkCommentList (Ui.comments st) (Ui.content st) (Ui.author st)
          false (or_string (err_message e) "Failed to load comments")),
       w', log)
    /\ or_string (err_message e) "Failed to load comments" <> "".
Proof.
  intros taskId st w e w' log Hcall. split.
  - now apply run_fetchComments_throw.
  - apply or_string_nonempty. discriminate.
Qed.

(** X20: when a comment has been created but listing the comments again
    fails, [add] has already emptied the content and author fields: the
    form is cleared, the list still lacks the new comment, and the error
    of the listing is shown. *)
Theorem add_refetch_failure_clears_form :
  forall taskId st w r1 w1 log1 e w2 log2,
    run network (createComment taskId (Ui.new_comment st)) w
    = (Ok r1, w1, log1) ->
    run network (listComments taskId) w1 = (Throw e, w2, log2) ->
    run network (add taskId st) w
    = ((Ok tt,
        Ui.mkCommentList (Ui.comments st) "" "" false
          (or_string (err_message e) "Failed to load comments")),
       w2, log1 ++ log2).
Proof.
  intros taskId st w r1 w1 log1 e w2 log2 Hcall Hlist.
  apply (run_add_any taskId st w r1 w1 log1 _ w2 log2 Hcall).
  exact (run_fetchComments_throw taskId
           (Ui.setAuthor "" (Ui.setContent "" (Ui.cl_setErr "" st)))
           w1 e w2 log2 Hlist).
Qed.

(** X21: when the answer to [listComments] is ok but has no [data]
    (or a null one), [fetchComments] stores that value as the comment list
    and reports nothing: no error is shown and [loading] is false, while
    the list is no longer an array. *)
Theorem fetchComments_without_data_is_silent :
  forall taskId st w res w' log data,
    run network (listComments taskId) w = (Ok res, w', log) ->
    getProp res "data" = Ok data ->
    is_nullish data = true ->
    run network (fetchComments taskId st) w
    = ((Ok tt,
        Ui.mkCommentList data (Ui.content st) (Ui.author st) false ""),
       w', log)
    /\ (forall items, data <> JArr items).
Proof.
  intros taskId st w res w' log data Hcall Hdata Hnull. split.
  - exact (run_fetchComments REACT_APP_API_URL JSON_parse World network
             taskId st w res w' log data Hcall Hdata).
  - intros items ->. discriminate.
Qed.

(** X22: the effect of [CommentList] fetches the comments only for a
    truthy [taskId]: for null, undefined, 0 or the empty string it issues
    no request and leaves the state as it is; otherwise it issues the one
    [GET] of that task's comments. *)
Theorem CommentList_effect_needs_truthy_taskId :
  forall taskId st w,
    (truthy taskId = false ->
     run network
       (Ui.CommentList_effect REACT_APP_API_URL JSON_parse taskId st) w
     = ((Ok tt, st), w, []))
    /\ (truthy taskId = true ->
        requests
          (run network
             (Ui.CommentList_effect REACT_APP_API_URL JSON_parse taskId st) w)
        = [http_request REACT_APP_API_URL (Api.comments_path taskId)
             no_options]).
Proof.
  intros taskId st w. unfold Ui.CommentList_effect. split; intros ->.
  - reflexivity.
  - destruct (fetchComments_run REACT_APP_API_URL JSON_parse World network
                taskId st w) as [st' [w' Hrun]].
    now rewrite Hrun.
Qed.

(** X23: [run] of [useAsync] always ends with [loading] false.  When the
    function resolves, [run] resolves to the same result, which becomes
    [data], and [error] is null; when it rejects, [run] rejects with the
    same error, which becomes [error], and [data] keeps the result of the
    run before.  [run] issues the requests of the function and no other. *)
Theorem useAsync_run_outcomes :
  forall (asyncFn : Promise JsValue) st w,
    (forall result w' log,
        run network asyncFn w = (Ok result, w', log) ->
        run network (Ui.useAsync_run asyncFn st) w
        = ((Ok result, Ui.mkAsync false None result), w', log))
    /\ (forall e w' log,
           run network asyncFn w = (Throw e, w', log) ->
           run network (Ui.useAsync_run asyncFn st) w
           = ((Throw e, Ui.mkAsync false (Some e) (Ui.ua_data st)), w', log)).
Proof.
  intros asyncFn st w. split.
  - intros result w' log Hcall. unfold Ui.useAsync_run.
    etransitivity; [ run_steps | ]. simpl. now rewrite ?app_nil_r.
  - intros e w' log Hcall. unfold Ui.useAsync_run.
    etransitivity; [ run_steps | ]. simpl. now rewrite ?app_nil_r.
Qed.

End MoreUiFacts.

(** ** TaskDetail: what the timestamps show *)

Lemma substring_length_le n s : (String.length (substring 0 n s) <= n)%nat.
Proof.
  revert s. induction n as [ | n IH ]; intros s.
  - destruct s; simpl; lia.
  - destruct s as [ | c s ]; simpl; [ lia | ]. specialize (IH s). lia.
Qed.

Lemma js_or_dash s :
  exists shown,
    js_or (JStr s) (JStr "-") = JStr shown
    /\ shown <> ""
    /\ (s <> "" -> shown = s)
    /\ (s = "" -> shown = "-").
Proof.
  unfold js_or. simpl. destruct (String.eqb_spec s "") as [-> | Hne]; simpl.
  - exists "-". repeat split; [ discriminate | contradiction ].
  - exists s. repeat split; [ exact Hne | contradiction ].
Qed.

(** X24: for a timestamp that is absent (null or undefined) or a string,
    the text shown is never empty and never longer than 19 characters; it
    is ['-'] when the timestamp is absent or empty.  For a timestamp of any
    other type (a number, say) the expression throws. *)
Theorem display_timestamp_bounds :
  forall stamp,
    (is_nullish stamp = true \/ (exists s, stamp = JStr s) ->
     exists shown,
       Ui.display_timestamp stamp = Ok (JStr shown)
       /\ shown <> ""
       /\ (String.length shown <= 19)%nat
       /\ (is_nullish stamp = true \/ stamp = JStr "" -> shown = "-"))
    /\ (is_nullish stamp = false -> (forall s, stamp <> JStr s) ->
        exists e, Ui.display_timestamp stamp = Throw e).
Proof.
  intros stamp. split.
  - intros [Hnull | [s ->]].
    + exists "-".
      destruct stamp; try discriminate;
        (split; [ reflexivity | ]; split; [ discriminate | ];
         split; [ simpl; lia | reflexivity ]).
    + unfold Ui.display_timestamp.
      destruct (js_or_dash (Ui.slice0 19 (Ui.replace "T" " " s)))
        as [shown [Hshown [Hne [Hkeep Hdash]]]].
      exists shown. rewrite Hshown. split; [ reflexivity | ].
      split; [ exact Hne | ]. split.
      * destruct (string_dec (Ui.slice0 19 (Ui.replace "T" " " s)) "")
          as [Hempty | Hfull].
        -- rewrite (Hdash Hempty). simpl. lia.
        -- rewrite (Hkeep Hfull). apply substring_length_le.
      * intros [Hnull | Hempty]; [ discriminate | ].
        injection Hempty as ->. now apply Hdash.
  - intros Hnull Hother.
    destruct stamp; try discriminate; try (eexists; reflexivity).
    exfalso. now apply (Hother s).
Qed.

Lemma eqb_not_T c d :
  Ascii.eqb c d = true -> d <> "T"%char -> c <> "T"%char.
Proof. intros H Hd. apply Ascii.eqb_eq in H. now subst. Qed.

(** X25: a text that already has the display format [YYYY-MM-DD HH:MM:SS]
    is shown unchanged: the transformation applied to its own output
    changes nothing. *)
Theorem display_timestamp_keeps_display_format :
  forall s,
    Ui.display_format s = true ->
    Ui.display_timestamp (JStr s) = Ok (JStr s).
Proof.
  intros s Hs. unfold Ui.display_format in Hs.
  apply andb_prop in Hs. destruct Hs as [Hs Hlen].
  do 19 (destruct s as [ | ? s ]; [ discriminate Hs | ]).
  destruct s; [ | discriminate Hlen ]. clear Hlen.
  simpl in Hs.
  repeat match type of Hs with
         | (_ && _)%bool = true =>
             let H := fresh "H" in
             apply andb_prop in Hs; destruct Hs as [Hs H]
         end.
  unfold Ui.display_timestamp.
  rewrite !replace_skip
    by (first [ apply digit_not_T; assumption
              | eapply eqb_not_T; [ eassumption | discriminate ] ]).
  reflexivity.
Qed.

(** ** The further properties at concrete inputs *)

(** [createTask] on an argument with an [id] of its own: only the title is
    sent. *)
Lemma api_requests_are_json_witness :
  payloads
    (run scripted
       (Api.createTask None json_parse
          (JObj [("title", JStr "Buy milk"); ("id", JNum 9)]))
       network_down)
  = [(Some json_headers, Some (dq "{'title':'Buy milk'}"))].
Proof.
  exact (proj1 (proj2
           (api_requests_are_json None json_parse (list FetchOutcome)
              scripted network_down (JNum 3) (JNum 3) (JNum 10)
              (JObj [("title", JStr "a")])
              (JObj [("title", JStr "Buy milk"); ("id", JNum 9)])
              eq_refl))).
Defined.

(** [http] called with an [Accept] header: no [Content-Type] is sent. *)
Lemma http_caller_headers_replace_default_witness :
  payloads
    (run scripted
       (Api.http None json_parse "/health"
          (mkInit (Some [("Accept", "text/plain")]) None None))
       network_down)
  = [(Some [("Accept", "text/plain")], None)].
Proof.
  exact (proj1
           (http_caller_headers_replace_default None json_parse
              (list FetchOutcome) scripted "/health"
              (mkInit (Some [("Accept", "text/plain")]) None None)
              [("Accept", "text/plain")] network_down eq_refl)).
Defined.

(** The network is down while the tasks are fetched again. *)
Lemma fetchTasks_failure_keeps_state_witness :
  run scripted (Ui.fetchTasks None json_parse two_tasks) network_down
  = ((Ok tt,
      Ui.mkApp (JArr [task_json 1 "a"; task_json 2 "b"]) (JNum 1) false
        "TypeError: Failed to fetch"),
     [], [http_request None "/api/tasks" no_options]).
Proof.
  exact (proj1
           (fetchTasks_failure_keeps_state None json_parse
              (list FetchOutcome) scripted two_tasks network_down
              fetch_failed [] [http_request None "/api/tasks" no_options]
              eq_refl)).
Defined.

(** The server answers [{}] to the list of tasks. *)
Lemma fetchTasks_without_data_loses_list_witness :
  Ui.tasks
    (final_state
       (run scripted (Ui.fetchTasks None json_parse two_tasks)
          [ok_response "{}"]))
  = JUndefined.
Proof.
  exact (proj1
           (fetchTasks_without_data_loses_list None json_parse
              (list FetchOutcome) scripted two_tasks [ok_response "{}"]
              (JObj []) [] [http_request None "/api/tasks" no_options]
              JUndefined eq_refl eq_refl eq_refl)).
Defined.

(** The network is down while task 2 is deleted. *)
Lemma task_mutations_rethrow_witness :
  run scripted (Ui.removeTask None json_parse (JNum 2) two_tasks)
    network_down
  = ((Throw fetch_failed, two_tasks), [],
     [http_request None "/api/tasks/2" (mkInit None (Some "DELETE") None)]).
Proof.
  exact (proj1 (proj2
           (task_mutations_rethrow None json_parse (list FetchOutcome)
              scripted))
           (JNum 2) two_tasks network_down fetch_failed []
           [http_request None "/api/tasks/2"
              (mkInit None (Some "DELETE") None)]
           eq_refl).
Defined.

(** The server answers [{}] to the creation of a task. *)
Lemma addTask_without_data_witness :
  Ui.tasks
    (final_state
       (run scripted
          (Ui.addTask None json_parse (JObj [("title", JStr "c")]) two_tasks)
          [ok_response "{}"]))
  = JArr [task_json 1 "a"; task_json 2 "b"; JUndefined].
Proof.
  exact (proj1 (proj2
           (addTask_without_data_appends_nothing_useful None json_parse
              (list FetchOutcome) scripted (JObj [("title", JStr "c")])
              two_tasks [ok_response "{}"] (JObj []) []
              [http_request None "/api/tasks"
                 (mkInit None (Some "POST") (Some (dq "{'title':'c'}")))]
              JUndefined [task_json 1 "a"; task_json 2 "b"]
              eq_refl eq_refl eq_refl eq_refl))).
Defined.

(** Task 9, which is not listed, is saved: the list stays as it is. *)
Lemma saveTask_keeps_length_and_selection_witness :
  Ui.tasks
    (final_state
       (run scripted
          (Ui.saveTask None json_parse (JNum 9) (JObj [("title", JStr "z")])
             two_tasks)
          [ok_response (dq "{'data':{'id':9,'title':'z'}}")]))
  = JArr [task_json 1 "a"; task_json 2 "b"].
Proof.
  assert (Hitems : Forall (fun t => is_nullish t = false)
                     [task_json 1 "a"; task_json 2 "b"])
    by (repeat constructor).
  assert (Hnone : forall t, In t [task_json 1 "a"; task_json 2 "b"] ->
                            field t "id" <> JNum 9)
    by (intros t [<- | [<- | []]]; discriminate).
  destruct (saveTask_keeps_length_and_selection None json_parse
              (list FetchOutcome) scripted (JNum 9)
              (JObj [("title", JStr "z")]) two_tasks
              [ok_response (dq "{'data':{'id':9,'title':'z'}}")]
              (JObj [("data", task_json 9 "z")]) []
              [http_request None "/api/tasks/9"
                 (mkInit None (Some "PUT") (Some (dq "{'title':'z'}")))]
              (task_json 9 "z") [task_json 1 "a"; task_json 2 "b"]
              eq_refl eq_refl eq_refl Hitems)
    as [_ [_ Hsame]].
  exact (Hsame Hnone).
Defined.

(** Task 3 is created while tasks 1 and 2 are listed: task 3 is the
    selected task. *)
Lemma addTask_selected_task_is_new_witness :
  Ui.selectedTask
    (final_state
       (run scripted
          (Ui.addTask None json_parse (JObj [("title", JStr "c")]) two_tasks)
          [ok_response (dq "{'data':{'id':3,'title':'c'}}")]))
  = Ok (task_json 3 "c").
Proof.
  assert (Hitems : Forall (fun t => is_nullish t = false)
                     [task_json 1 "a"; task_json 2 "b"])
    by (repeat constructor).
  assert (Hfresh : forall t, In t [task_json 1 "a"; task_json 2 "b"] ->
                             field t "id" <> field (task_json 3 "c") "id")
    by (intros t [<- | [<- | []]]; discriminate).
  exact (addTask_selected_task_is_new None json_parse (list FetchOutcome)
           scripted (JObj [("title", JStr "c")]) two_tasks
           [ok_response (dq "{'data':{'id':3,'title':'c'}}")]
           (JObj [("data", task_json 3 "c")]) []
           [http_request None "/api/tasks"
              (mkInit None (Some "POST") (Some (dq "{'title':'c'}")))]
           (task_json 3 "c") [task_json 1 "a"; task_json 2 "b"]
           eq_refl eq_refl eq_refl eq_refl Hitems eq_refl Hfresh).
Defined.

(** Task 1, the selected one, is deleted: no task is selected and no
    comment list is mounted. *)
Lemma removeTask_selected_task_witness :
  Ui.selectedTask
    (final_state
       (run scripted (Ui.removeTask None json_parse (JNum 1) two_tasks)
          [no_content]))
  = Ok JNull
  /\ Ui.App_comments_taskId
       (final_state
          (run scripted (Ui.removeTask None json_parse (JNum 1) two_tasks)
             [no_content]))
     = None.
Proof.
  assert (Hitems : Forall (fun t => is_nullish t = false)
                     [task_json 1 "a"; task_json 2 "b"])
    by (repeat constructor).
  assert (Hids : forall t, In t [task_json 1 "a"; task_json 2 "b"] ->
                           field t "id" <> JNull)
    by (intros t [<- | [<- | []]]; discriminate).
  destruct (removeTask_selected_task None json_parse (list FetchOutcome)
              scripted (JNum 1) two_tasks [no_content] JNull []
              [http_request None "/api/tasks/1"
                 (mkInit None (Some "DELETE") None)]
              [task_json 1 "a"; task_json 2 "b"]
              eq_refl eq_refl Hitems eq_refl Hids)
    as [Hselected _].
  exact (Hselected eq_refl).
Defined.

(** The create form with title c, in [App]: the task is created, the form
    is emptied. *)
Lemma TaskList_submit_outcomes_witness :
  final_state
    (run scripted
       (Ui.TaskList_submit (Ui.addTask None json_parse)
          (Ui.mkTaskList "c" "" "old error", two_tasks))
       [ok_response (dq "{'data':{'id':3,'title':'c'}}")])
  = (Ui.TaskList_init,
     Ui.mkApp (JArr [task_json 1 "a"; task_json 2 "b"; task_json 3 "c"])
       (JNum 3) false "").
Proof.
  destruct (TaskList_submit_outcomes (list FetchOutcome) scripted Ui.App
              (Ui.addTask None json_parse)
              (Ui.mkTaskList "c" "" "old error") two_tasks
              [ok_response (dq "{'data':{'id':3,'title':'c'}}")])
    as [Hok _].
  rewrite (Hok (Ui.mkApp
                  (JArr [task_json 1 "a"; task_json 2 "b"; task_json 3 "c"])
                  (JNum 3) false "")
             []
             [http_request None "/api/tasks"
                (mkInit None (Some "POST") (Some (dq "{'title':'c'}")))]
             eq_refl).
  reflexivity.
Defined.

(** The server refuses a title of blanks with a 400 and its message. *)
Lemma TaskList_shows_server_message_witness :
  final_state
    (run scripted
       (Ui.TaskList_submit (Ui.addTask None json_parse)
          (Ui.mkTaskList " " "" "", two_tasks))
       [error_response 400 "BAD REQUEST"
          (dq "{'error':{'message':'title is required'}}")])
  = (Ui.mkTaskList " " "" "title is required", two_tasks).
Proof.
  assert (Hne : "title is required" <> "") by discriminate.
  exact (TaskList_shows_server_message None json_parse (list FetchOutcome)
           scripted (Ui.mkTaskList " " "" "") two_tasks
           [error_response 400 "BAD REQUEST"
              (dq "{'error':{'message':'title is required'}}")]
           (mkResponse false 400 "BAD REQUEST"
              (dq "{'error':{'message':'title is required'}}"))
           [] "title is required" eq_refl eq_refl eq_refl Hne).
Defined.

(** The create form with an empty description: the body has the title
    alone. *)
Lemma TaskList_submit_payload_witness :
  payloads
    (run scripted
       (Ui.TaskList_submit (Ui.addTask None json_parse)
          (Ui.mkTaskList "c" "" "", two_tasks))
       network_down)
  = [(Some json_headers, Some (dq "{'title':'c'}"))].
Proof.
  destruct (TaskList_submit_payload None json_parse (list FetchOutcome)
              scripted (Ui.mkTaskList "c" "" "") two_tasks network_down)
    as [Hsent [Hempty _]].
  rewrite Hsent, (Hempty eq_refl). reflexivity.
Defined.

(** The edit form of task 1, retitled and saved, in [App]. *)
Lemma TaskDetail_submit_outcomes_witness :
  Ui.td_message
    (fst (final_state
            (run scripted
               (Ui.TaskDetail_submit (Ui.saveTask None json_parse)
                  (task_json 1 "a")
                  (Ui.mkTaskDetail (JStr "A") (JStr "") "" "" [], two_tasks))
               [ok_response (dq "{'data':{'id':1,'title':'A'}}")])))
  = "Saved".
Proof.
  destruct (TaskDetail_submit_outcomes (list FetchOutcome) scripted Ui.App
              (Ui.saveTask None json_parse) (task_json 1 "a") (JNum 1)
              (Ui.mkTaskDetail (JStr "A") (JStr "") "" "" []) two_tasks
              [ok_response (dq "{'data':{'id':1,'title':'A'}}")] eq_refl)
    as [Hok _].
  destruct (Hok (Ui.mkApp (JArr [task_json 1 "A"; task_json 2 "b"])
                   (JNum 1) false "")
              []
              [http_request None "/api/tasks/1"
                 (mkInit None (Some "PUT")
                    (Some (dq "{'title':'A','description':''}")))]
              eq_refl)
    as [td' [Hrun [Hmessage _]]].
  rewrite Hrun. exact Hmessage.
Defined.

(** The edit form of a task without description, saved as it opened. *)
Lemma TaskDetail_submit_request_witness :
  payloads
    (run scripted
       (Ui.TaskDetail_submit (Ui.saveTask None json_parse)
          (JObj [("id", JNum 1); ("title", JStr "a"); ("description", JNull)])
          (Ui.mkTaskDetail (JStr "a") (JStr "") "" "" [], two_tasks))
       network_down)
  = [(Some json_headers, Some (dq "{'title':'a','description':''}"))].
Proof.
  destruct (TaskDetail_submit_request None json_parse (list FetchOutcome)
              scripted
              (JObj [("id", JNum 1); ("title", JStr "a");
                     ("description", JNull)])
              (JNum 1) (Ui.mkTaskDetail (JStr "a") (JStr "") "" "" [])
              two_tasks network_down eq_refl (or_introl eq_refl))
    as [Hsent _].
  unfold payloads. rewrite Hsent. reflexivity.
Defined.

(** The network is down while an edited comment is saved: the editing
    ends all the same. *)
Lemma EditableComment_save_failure_closes_witness :
  exists update,
    run scripted
      (Ui.EditableComment_save None json_parse (JNum 3)
         (comment_json 10 "urgent" JNull)
         (Ui.mkEditable true (JStr "later") (JStr "Ada"))
         Ui.CommentList_init)
      network_down
    = ((Ok update,
        Ui.mkCommentList (JArr []) "" "" false "TypeError: Failed to fetch"),
       [],
       [http_request None "/api/tasks/3/comments/10"
          (mkInit None (Some "PUT")
             (Some (dq "{'content':'later','author':'Ada'}")))])
    /\ update (Ui.mkEditable true (JStr "later") (JStr "Ada"))
       = Ui.mkEditable false (JStr "later") (JStr "Ada").
Proof.
  destruct (EditableComment_save_failure_closes None json_parse
              (list FetchOutcome) scripted (JNum 3)
              (comment_json 10 "urgent" JNull) (JNum 10)
              (Ui.mkEditable true (JStr "later") (JStr "Ada"))
              Ui.CommentList_init network_down fetch_failed []
              [http_request None "/api/tasks/3/comments/10"
                 (mkInit None (Some "PUT")
                    (Some (dq "{'content':'later','author':'Ada'}")))]
              eq_refl eq_refl eq_refl)
    as [update [Hrun [_ Hupdate]]].
  exists update. split; [ exact Hrun | exact Hupdate ].
Defined.

(** The network is down while a comment is added: what was typed stays. *)
Lemma comment_mutation_failure_keeps_state_witness :
  final_state
    (run scripted
       (Ui.add None json_parse (JNum 3)
          (Ui.mkCommentList (JArr []) "urgent" "Ada" false ""))
       network_down)
  = Ui.mkCommentList (JArr []) "urgent" "Ada" false
      "TypeError: Failed to fetch".
Proof.
  rewrite (proj1
             (comment_mutation_failure_keeps_state None json_parse
                (list FetchOutcome) scripted)
             (JNum 3) (Ui.mkCommentList (JArr []) "urgent" "Ada" false "")
             network_down fetch_failed []
             [http_request None "/api/tasks/3/comments"
                (mkInit None (Some "POST")
                   (Some (dq "{'content':'urgent','author':'Ada'}")))]
             eq_refl).
  reflexivity.
Defined.

(** The comments of task 4 cannot be loaded: those shown before stay. *)
Lemma fetchComments_failure_keeps_comments_witness :
  final_state
    (run scripted
       (Ui.fetchComments None json_parse (JNum 4)
          (Ui.mkCommentList (JArr [comment_json 10 "urgent" JNull])
             "" "" false ""))
       network_down)
  = Ui.mkCommentList (JArr [comment_json 10 "urgent" JNull]) "" "" false
      "TypeError: Failed to fetch".
Proof.
  rewrite (proj1
             (fetchComments_failure_keeps_comments None json_parse
                (list FetchOutcome) scripted (JNum 4)
                (Ui.mkCommentList (JArr [comment_json 10 "urgent" JNull])
                   "" "" false "")
                network_down fetch_failed []
                [http_request None "/api/tasks/4/comments" no_options]
                eq_refl)).
  reflexivity.
Defined.

(** A comment is created, then the network goes down. *)
Lemma add_refetch_failure_clears_form_witness :
  final_state
    (run scripted
       (Ui.add None json_parse (JNum 3)
          (Ui.mkCommentList (JArr []) "urgent" "Ada" false ""))
       [ok_response (dq "{'data':{'id':10}}")])
  = Ui.mkCommentList (JArr []) "" "" false "TypeError: Failed to fetch".
Proof.
  rewrite (add_refetch_failure_clears_form None json_parse
             (list FetchOutcome) scripted (JNum 3)
             (Ui.mkCommentList (JArr []) "urgent" "Ada" false "")
             [ok_response (dq "{'data':{'id':10}}")]
             (JObj [("data", JObj [("id", JNum 10)])]) []
             [http_request None "/api/tasks/3/comments"
                (mkInit None (Some "POST")
                   (Some (dq "{'content':'urgent','author':'Ada'}")))]
             fetch_failed []
             [http_request None "/api/tasks/3/comments" no_options]
             eq_refl eq_refl).
  reflexivity.
Defined.

(** The server answers [{}] to the list of comments. *)
Lemma fetchComments_without_data_is_silent_witness :
  final_state
    (run scripted (Ui.fetchComments None json_parse (JNum 3)
                     Ui.CommentList_init)
       [ok_response "{}"])
  = Ui.mkCommentList JUndefined "" "" false "".
Proof.
  rewrite (proj1
             (fetchComments_without_data_is_silent None json_parse
                (list FetchOutcome) scripted (JNum 3) Ui.CommentList_init
                [ok_response "{}"] (JObj []) []
                [http_request None "/api/tasks/3/comments" no_options]
                JUndefined eq_refl eq_refl eq_refl)).
  reflexivity.
Defined.

(** A task whose id is 0: its comments are never requested. *)
Lemma CommentList_effect_needs_truthy_taskId_witness :
  run scripted
    (Ui.CommentList_effect None json_parse (JNum 0) Ui.CommentList_init)
    [ok_response (dq "{'data':[]}")]
  = ((Ok tt, Ui.CommentList_init), [ok_response (dq "{'data':[]}")], []).
Proof.
  exact (proj1
           (CommentList_effect_needs_truthy_taskId None json_parse
              (list FetchOutcome) scripted (JNum 0) Ui.CommentList_init
              [ok_response (dq "{'data':[]}")])
           eq_refl).
Defined.

(** [useAsync] over [listTasks], after an earlier success, with the
    network down: the old data stay beside the error. *)
Lemma useAsync_run_outcomes_witness :
  run scripted
    (Ui.useAsync_run (Api.listTasks None json_parse)
       (Ui.mkAsync false None (JObj [("data", JArr [])])))
    network_down
  = ((Throw fetch_failed,
      Ui.mkAsync false (Some fetch_failed) (JObj [("data", JArr [])])),
     [], [http_request None "/api/tasks" no_options]).
Proof.
  exact (proj2
           (useAsync_run_outcomes (list FetchOutcome) scripted
              (Api.listTasks None json_parse)
              (Ui.mkAsync false None (JObj [("data", JArr [])]))
              network_down)
           fetch_failed [] [http_request None "/api/tasks" no_options]
           eq_refl).
Defined.

(** A task without [updated_at]. *)
Lemma display_timestamp_bounds_witness :
  exists shown,
    Ui.display_timestamp JUndefined = Ok (JStr shown)
    /\ shown <> ""
    /\ (String.length shown <= 19)%nat
    /\ (is_nullish JUndefined = true \/ JUndefined = JStr "" -> shown = "-").
Proof.
  exact (proj1 (display_timestamp_bounds JUndefined) (or_introl eq_refl)).
Defined.

(** A timestamp the server already sends in the display format. *)
Lemma display_timestamp_keeps_display_format_witness :
  Ui.display_timestamp (JStr "2024-05-06 07:08:09")
  = Ok (JStr "2024-05-06 07:08:09").
Proof.
  exact (display_timestamp_keeps_display_format "2024-05-06 07:08:09"
           eq_refl).
Defined.
